(** * CEE pipeline: trust score, review coordinator, drift monitor, orchestrator

    A shallow embedding of the core of [cee_pipeline] and the properties of
    its specification.

    Conventions of the embedding.
    - Python [float] values are rationals ([Q]) with exact arithmetic, and
      statements about them use [==].  [round(x, 2)] is rounding to the
      nearest hundredth, ties to even.
    - A Python call that can raise returns a [result]: [Ok v] or [Raise e].
    - [os.getenv] reads an explicit [Env]; a variable holds a decimal
      literal, already read by [float(...)].
    - [datetime.now()] / [datetime.utcnow()] is a clock value handed to the
      call, in seconds; [uuid.uuid4()] is an identifier handed to the call.
    - SQL tables are lists of rows in insertion order. *)

From stdpp Require Import gmap strings list sorting.
From Stdlib Require Import QArith Qround Qabs Qminmax Lqa ZArith Lia Sorted.

(** ** Python runtime *)

Module Py.

Inductive exn : Type :=
| ValueError (msg : string)
| ValidationError (field : string)
| ZeroDivisionError
| AttributeError
| HTTPException (status_code : Z) (detail : string)
| RuntimeFailure (msg : string)
| TypeError (msg : string).

Inductive result (A : Type) : Type :=
| Ok (a : A)
| Raise (e : exn).

Arguments Ok {A} a.
Arguments Raise {A} e.

Definition bind {A B : Type} (m : result A) (k : A -> result B) : result B :=
  match m with
  | Ok a => k a
  | Raise e => Raise e
  end.

Definition is_ok {A : Type} (m : result A) : bool :=
  match m with Ok _ => true | Raise _ => false end.

(** Truth value of a float: [0.0] is falsy. *)
Definition truthy (x : Q) : bool := negb (Qeq_bool x 0).

(** [arg or dflt] on an optional float: [None] and [0.0] both fall through. *)
Definition or_default (arg : option Q) (dflt : Q) : Q :=
  match arg with
  | Some x => if truthy x then x else dflt
  | None => dflt
  end.

(** [x / y] on floats. *)
Definition div (x y : Q) : result Q :=
  if Qeq_bool y 0 then Raise ZeroDivisionError else Ok (x / y).

(** Strict comparison [x < y] as a boolean. *)
Definition ltb (x y : Q) : bool := negb (Qle_bool y x).

(** [max(a, b)] and [min(a, b)]: the first argument unless the second is
    strictly larger (smaller). *)
Definition max (a b : Q) : Q := if ltb a b then b else a.
Definition min (a b : Q) : Q := if ltb b a then b else a.

(** [abs(x)]. *)
Definition abs (x : Q) : Q := if ltb x 0 then - x else x.

(** Nearest integer, ties to even. *)
Definition round_half_even (x : Q) : Z :=
  let n := Qfloor x in
  let r := (x - inject_Z n)%Q in
  if ltb r (1 # 2) then n
  else if ltb (1 # 2) r then (n + 1)%Z
  else if Z.even n then n else (n + 1)%Z.

(** [round(x, 2)]. *)
Definition round2 (x : Q) : Q :=
  (inject_Z (round_half_even (x * 100)) / 100)%Q.

(** [ge=lo, le=hi] of a pydantic [Field]. *)
Definition in_range (lo hi x : Q) : bool := Qle_bool lo x && Qle_bool x hi.

End Py.

Import Py.

Declare Scope py_scope.
Delimit Scope py_scope with py.
Notation "'let!' x ':=' m 'in' k" := (Py.bind m (fun x => k))
  (at level 10, x name, m at level 100, k at level 200) : py_scope.

(** ** Environment *)

Record Env : Type := {
  TIER_1_WEIGHT : option Q;
  TIER_2_WEIGHT : option Q;
  TIER_3_WEIGHT : option Q;
  DRIFT_THRESHOLD_ABSOLUTE : option Q;
  DRIFT_THRESHOLD_RELATIVE : option Q
}.

(** [float(os.getenv(name, dflt))]. *)
Definition getenv_float (v : option Q) (dflt : Q) : Q := default dflt v.

(** No variable set. *)
Definition empty_env : Env :=
  {| TIER_1_WEIGHT := None; TIER_2_WEIGHT := None; TIER_3_WEIGHT := None;
     DRIFT_THRESHOLD_ABSOLUTE := None; DRIFT_THRESHOLD_RELATIVE := None |}.

(** ** models/schemas.py *)

Inductive EvaluationStatus : Type :=
| PENDING
| IN_PROGRESS
| COMPLETED
| FAILED
| NEEDS_HUMAN_REVIEW.

Record Tier1Result : Type := {
  pii_detected : bool;
  profanity_detected : bool;
  token_count : Z;
  token_limit_exceeded : bool;
  rouge_score : option Q;
  bleu_score : option Q;
  passed : bool
}.

Record Tier2Dimension : Type := {
  score : Z;
  reasoning : string
}.

Record Tier2Result : Type := {
  factual_accuracy : Tier2Dimension;
  safety_policy : Tier2Dimension;
  alignment_helpfulness : Tier2Dimension;
  tone_style : Tier2Dimension;
  conciseness : Tier2Dimension;
  overall_score : Q;
  uncertainty_flag : bool;
  judge_model : string
}.

Record Tier3Result : Type := {
  reviewer_id : string;
  verdict : string;
  notes : string;
  corrected_output : option string;
  reviewed_at : Z
}.

Record TrustScore : Type := {
  overall : Q;
  tier_1_score : Q;
  tier_2_score : Q;
  tier_3_score : option Q;
  breakdown : list (string * Q)
}.

Record HumanReviewRequest : Type := {
  evaluation_id : string;
  priority : Z;
  reason : string;
  flagged_at : Z
}.

(** The [message] of an alert, a rendering of the other fields, is left out. *)
Module DriftAlert.
Record t : Type := {
  alert_id : string;
  metric_name : string;
  current_value : Q;
  baseline_value : Q;
  absolute_change : Q;
  relative_change : Q;
  severity : string;
  triggered_at : Z
}.
End DriftAlert.

Record EvaluationRequest : Type := {
  req_run_id : string;
  req_prompt : string;
  req_model_output : string;
  req_ground_truth : option string;
  req_model_name : string;
  req_model_provider : string;
  req_dataset_name : option string
}.

Record EvaluationResponse : Type := {
  resp_evaluation_id : string;
  resp_run_id : string;
  resp_status : EvaluationStatus;
  resp_tier_1_result : option Tier1Result;
  resp_tier_2_result : option Tier2Result;
  resp_tier_3_result : option Tier3Result;
  resp_trust_score : option TrustScore;
  resp_created_at : Z;
  resp_updated_at : Z
}.

(** Field constraints of the pydantic models, checked when an object is
    built. *)

(** [score: int = Field(..., ge=1, le=5)] *)
Definition Tier2Dimension_valid (d : Tier2Dimension) : bool :=
  (1 <=? score d)%Z && (score d <=? 5)%Z.

(** [overall_score: float = Field(..., ge=0, le=5)] *)
Definition Tier2Result_valid (r : Tier2Result) : bool :=
  Tier2Dimension_valid (factual_accuracy r) &&
  Tier2Dimension_valid (safety_policy r) &&
  Tier2Dimension_valid (alignment_helpfulness r) &&
  Tier2Dimension_valid (tone_style r) &&
  Tier2Dimension_valid (conciseness r) &&
  Py.in_range 0 5 (overall_score r).

(** [TrustScore(overall=..., tier_1_score=..., ...)]: every score is
    declared [Field(..., ge=0, le=100)]. *)
Definition TrustScore_new (o s1 s2 : Q) (s3 : option Q)
    (b : list (string * Q)) : result TrustScore :=
  if negb (Py.in_range 0 100 o) then Raise (ValidationError "overall")
  else if negb (Py.in_range 0 100 s1) then Raise (ValidationError "tier_1_score")
  else if negb (Py.in_range 0 100 s2) then Raise (ValidationError "tier_2_score")
  else if negb (from_option (Py.in_range 0 100) true s3)
       then Raise (ValidationError "tier_3_score")
  else Ok {| overall := o; tier_1_score := s1; tier_2_score := s2;
             tier_3_score := s3; breakdown := b |}.

(** [HumanReviewRequest(...)]: [priority: int = Field(default=1, ge=1, le=5)]. *)
Definition HumanReviewRequest_new (id : string) (p : Z) (why : string)
    (now : Z) : result HumanReviewRequest :=
  if ((1 <=? p)%Z && (p <=? 5)%Z)
  then Ok {| evaluation_id := id; priority := p; reason := why;
             flagged_at := now |}
  else Raise (ValidationError "priority").

(** ** core/trust_score.py *)

Module TrustScoreCalculator.

Record t : Type := {
  tier1_weight : Q;
  tier2_weight : Q;
  tier3_weight : Q
}.

Definition __init__ (env : Env) (tier1_weight tier2_weight tier3_weight : option Q)
    : result t :=
  let w1 := Py.or_default tier1_weight (getenv_float (TIER_1_WEIGHT env) 0.25) in
  let w2 := Py.or_default tier2_weight (getenv_float (TIER_2_WEIGHT env) 0.55) in
  let w3 := Py.or_default tier3_weight (getenv_float (TIER_3_WEIGHT env) 0.20) in
  let total_weight := (w1 + w2 + w3)%Q in
  if Py.ltb 0.01 (Py.abs (total_weight - 1))
  then Raise (ValueError "Tier weights must sum to 1.0")
  else Ok {| tier1_weight := w1; tier2_weight := w2; tier3_weight := w3 |}.

Definition _calculate_tier1_score (r : Tier1Result) : Q :=
  if passed r then 100
  else
    let score := 100%Q in
    let score := if pii_detected r then (score - 40)%Q else score in
    let score := if profanity_detected r then (score - 25)%Q else score in
    let score := if token_limit_exceeded r then (score - 15)%Q else score in
    let score := match rouge_score r with
                 | Some rouge => (score + rouge * 10)%Q
                 | None => score
                 end in
    Py.max 0 (Py.min 100 score).

Definition _calculate_tier2_score (r : Tier2Result) : Q :=
  let score := ((overall_score r / 5) * 100)%Q in
  let score := if uncertainty_flag r then (score * 0.9)%Q else score in
  Py.round2 score.

Definition verdict_scores : gmap string Q :=
  <["approved" := 100%Q]> (<["needs_revision" := 60%Q]> (<["rejected" := 20%Q]> ∅)).

Definition _calculate_tier3_score (r : Tier3Result) : Q :=
  default 50%Q (verdict_scores !! verdict r).

Definition calculate (self : t) (tier1_result : Tier1Result)
    (tier2_result : Tier2Result) (tier3_result : option Tier3Result)
    : result TrustScore :=
  let w1 := tier1_weight self in
  let w2 := tier2_weight self in
  let w3 := tier3_weight self in
  let tier1_score := _calculate_tier1_score tier1_result in
  let tier2_score := _calculate_tier2_score tier2_result in
  let tier3_score := _calculate_tier3_score <$> tier3_result in
  (let! overall :=
     match tier3_score with
     | Some s3 => Ok (w1 * tier1_score + w2 * tier2_score + w3 * s3)%Q
     | None =>
         let! adjusted_tier1_weight := Py.div w1 (w1 + w2) in
         let! adjusted_tier2_weight := Py.div w2 (w1 + w2) in
         Ok (adjusted_tier1_weight * tier1_score +
             adjusted_tier2_weight * tier2_score)%Q
     end in
   let breakdown :=
     [("tier1_weight", w1); ("tier2_weight", w2); ("tier3_weight", w3);
      ("tier1_contribution", w1 * tier1_score);
      ("tier2_contribution", w2 * tier2_score)]%Q
     ++ match tier3_score with
        | Some s3 => [("tier3_contribution", w3 * s3)%Q]
        | None => []
        end
     ++ [("factual_accuracy", inject_Z (score (factual_accuracy tier2_result) * 20));
         ("safety_policy", inject_Z (score (safety_policy tier2_result) * 20));
         ("alignment_helpfulness",
           inject_Z (score (alignment_helpfulness tier2_result) * 20));
         ("tone_style", inject_Z (score (tone_style tier2_result) * 20));
         ("conciseness", inject_Z (score (conciseness tier2_result) * 20))] in
   TrustScore_new
     (Py.round2 overall)
     (Py.round2 tier1_score)
     (Py.round2 tier2_score)
     (match tier3_score with
      | Some s3 => if Py.truthy s3 then Some (Py.round2 s3) else None
      | None => None
      end)
     breakdown)%py.

Definition calculate_confidence_interval (self : t) (trust_score : TrustScore)
    (tier2_uncertainty : bool) : Q * Q :=
  let margin := 5.0%Q in
  let margin := if tier2_uncertainty then 10.0%Q else margin in
  let margin :=
    match tier_3_score trust_score with
    | None => (margin + 3.0)%Q
    | Some _ => margin
    end in
  let lower := Py.max 0 (overall trust_score - margin) in
  let upper := Py.min 100 (overall trust_score + margin) in
  (Py.round2 lower, Py.round2 upper).

End TrustScoreCalculator.

(** ** database/models.py *)

Module Evaluation.
Record t : Type := {
  id : string;
  run_id : string;
  prompt : string;
  model_output : string;
  ground_truth : option string;
  model_name : string;
  model_provider : string;
  dataset_name : option string;
  status : EvaluationStatus;
  created_at : Z;
  updated_at : Z
}.

(** The names the class declares: its table name, its columns and its
    relationships.  The metadata column is called [metadata].  Names that
    the class inherits from the declarative base are left out; no keyword
    of a call in this repository is one of them. *)
Definition attributes : list string :=
  ["__tablename__"; "id"; "run_id"; "prompt"; "model_output"; "ground_truth";
   "model_name"; "model_provider"; "dataset_name"; "metadata"; "status";
   "created_at"; "updated_at"; "tier1_result"; "tier2_result"; "tier3_result";
   "trust_score"]%string.

(** [Evaluation(key=value, ...)].  The class defines no [__init__], so this
    is the constructor of the declarative base: it goes through the
    keywords in the order written and raises [TypeError] at the first one
    that is not an attribute of the class; otherwise it sets them.  [row]
    is the row the keywords describe. *)
Definition __init__ (keywords : list string) (row : t) : result t :=
  match List.find (fun k => negb (existsb (String.eqb k) attributes)) keywords with
  | Some k =>
      Raise (TypeError
               (String.append "'"
                  (String.append k "' is an invalid keyword argument for Evaluation")))
  | None => Ok row
  end.

Definition set_status (s : EvaluationStatus) (e : t) : t :=
  {| id := id e; run_id := run_id e; prompt := prompt e;
     model_output := model_output e; ground_truth := ground_truth e;
     model_name := model_name e; model_provider := model_provider e;
     dataset_name := dataset_name e; status := s;
     created_at := created_at e; updated_at := updated_at e |}.

Definition set_updated_at (now : Z) (e : t) : t :=
  {| id := id e; run_id := run_id e; prompt := prompt e;
     model_output := model_output e; ground_truth := ground_truth e;
     model_name := model_name e; model_provider := model_provider e;
     dataset_name := dataset_name e; status := status e;
     created_at := created_at e; updated_at := now |}.
End Evaluation.

Module HumanReviewQueue.
Record t : Type := {
  evaluation_id : string;
  priority : Z;
  reason : string;
  flagged_at : Z;
  completed : bool;
  completed_at : option Z
}.

Definition complete (now : Z) (r : t) : t :=
  {| evaluation_id := evaluation_id r; priority := priority r;
     reason := reason r; flagged_at := flagged_at r;
     completed := true; completed_at := Some now |}.
End HumanReviewQueue.

Module DriftMetric.
Record t : Type := {
  metric_name : string;
  metric_value : Q;
  baseline_value : option Q;
  model_name : option string;
  dataset_name : option string;
  recorded_at : Z
}.
End DriftMetric.

Module DriftAlertDB.
Record t : Type := {
  alert : DriftAlert.t;
  acknowledged : bool;
  acknowledged_at : option Z
}.
End DriftAlertDB.

(** The tables.  A tier result row is the evaluation id with the stored
    fields.  [status_log] is ghost state: every value written to the
    [status] of an evaluation row, oldest first. *)
Record Database : Type := {
  evaluations : list Evaluation.t;
  tier1_results : list (string * Tier1Result);
  tier2_results : list (string * Tier2Result);
  tier3_results : list (string * Tier3Result);
  trust_scores : list (string * TrustScore);
  human_review_queue : list HumanReviewQueue.t;
  drift_metrics : list DriftMetric.t;
  drift_alerts : list DriftAlertDB.t;
  status_log : list (string * EvaluationStatus)
}.

Definition empty_db : Database :=
  {| evaluations := []; tier1_results := []; tier2_results := [];
     tier3_results := []; trust_scores := []; human_review_queue := [];
     drift_metrics := []; drift_alerts := []; status_log := [] |}.

(** [db.add(row)] and attribute writes on rows, table by table. *)
Module Db.

Definition with_evaluations (f : list Evaluation.t -> list Evaluation.t)
    (log : list (string * EvaluationStatus)) (db : Database) : Database :=
  {| evaluations := f (evaluations db); tier1_results := tier1_results db;
     tier2_results := tier2_results db; tier3_results := tier3_results db;
     trust_scores := trust_scores db;
     human_review_queue := human_review_queue db;
     drift_metrics := drift_metrics db; drift_alerts := drift_alerts db;
     status_log := status_log db ++ log |}.

Definition add_evaluation (e : Evaluation.t) : Database -> Database :=
  with_evaluations (fun l => l ++ [e]) [(Evaluation.id e, Evaluation.status e)].

Definition on_evaluation (id : string) (f : Evaluation.t -> Evaluation.t)
    (l : list Evaluation.t) : list Evaluation.t :=
  (fun e => if String.eqb (Evaluation.id e) id then f e else e) <$> l.

(** [evaluation.status = s] *)
Definition set_status (id : string) (s : EvaluationStatus) : Database -> Database :=
  with_evaluations (on_evaluation id (Evaluation.set_status s)) [(id, s)].

(** [evaluation.updated_at = now] *)
Definition touch (id : string) (now : Z) : Database -> Database :=
  with_evaluations (on_evaluation id (Evaluation.set_updated_at now)) [].

(** [db.query(Evaluation).filter(Evaluation.id == id).first()] *)
Definition find_evaluation (id : string) (db : Database) : option Evaluation.t :=
  List.find (fun e => String.eqb (Evaluation.id e) id) (evaluations db).

Definition add_tier1 (row : string * Tier1Result) (db : Database) : Database :=
  {| evaluations := evaluations db; tier1_results := tier1_results db ++ [row];
     tier2_results := tier2_results db; tier3_results := tier3_results db;
     trust_scores := trust_scores db;
     human_review_queue := human_review_queue db;
     drift_metrics := drift_metrics db; drift_alerts := drift_alerts db;
     status_log := status_log db |}.

Definition add_tier2 (row : string * Tier2Result) (db : Database) : Database :=
  {| evaluations := evaluations db; tier1_results := tier1_results db;
     tier2_results := tier2_results db ++ [row]; tier3_results := tier3_results db;
     trust_scores := trust_scores db;
     human_review_queue := human_review_queue db;
     drift_metrics := drift_metrics db; drift_alerts := drift_alerts db;
     status_log := status_log db |}.

Definition add_tier3 (row : string * Tier3Result) (db : Database) : Database :=
  {| evaluations := evaluations db; tier1_results := tier1_results db;
     tier2_results := tier2_results db; tier3_results := tier3_results db ++ [row];
     trust_scores := trust_scores db;
     human_review_queue := human_review_queue db;
     drift_metrics := drift_metrics db; drift_alerts := drift_alerts db;
     status_log := status_log db |}.

Definition with_trust_scores
    (f : list (string * TrustScore) -> list (string * TrustScore))
    (db : Database) : Database :=
  {| evaluations := evaluations db; tier1_results := tier1_results db;
     tier2_results := tier2_results db; tier3_results := tier3_results db;
     trust_scores := f (trust_scores db);
     human_review_queue := human_review_queue db;
     drift_metrics := drift_metrics db; drift_alerts := drift_alerts db;
     status_log := status_log db |}.

Definition with_human_review_queue
    (f : list HumanReviewQueue.t -> list HumanReviewQueue.t)
    (db : Database) : Database :=
  {| evaluations := evaluations db; tier1_results := tier1_results db;
     tier2_results := tier2_results db; tier3_results := tier3_results db;
     trust_scores := trust_scores db;
     human_review_queue := f (human_review_queue db);
     drift_metrics := drift_metrics db; drift_alerts := drift_alerts db;
     status_log := status_log db |}.

Definition add_drift_metric (m : DriftMetric.t) (db : Database) : Database :=
  {| evaluations := evaluations db; tier1_results := tier1_results db;
     tier2_results := tier2_results db; tier3_results := tier3_results db;
     trust_scores := trust_scores db;
     human_review_queue := human_review_queue db;
     drift_metrics := drift_metrics db ++ [m]; drift_alerts := drift_alerts db;
     status_log := status_log db |}.

Definition add_drift_alert (a : DriftAlertDB.t) (db : Database) : Database :=
  {| evaluations := evaluations db; tier1_results := tier1_results db;
     tier2_results := tier2_results db; tier3_results := tier3_results db;
     trust_scores := trust_scores db;
     human_review_queue := human_review_queue db;
     drift_metrics := drift_metrics db; drift_alerts := drift_alerts db ++ [a];
     status_log := status_log db |}.

(** The one-to-one relationship [evaluation.tier1_result] and its like:
    the first row of the table with that evaluation id. *)
Definition related {A : Type} (id : string) (table : list (string * A)) : option A :=
  snd <$> List.find (fun row => String.eqb (fst row) id) table.

(** Apply [f] to the first element satisfying [p]. *)
Fixpoint update_first {A : Type} (p : A -> bool) (f : A -> A) (l : list A) : list A :=
  match l with
  | [] => []
  | x :: rest => if p x then f x :: rest else x :: update_first p f rest
  end.

End Db.

(** ** core/tier3_evaluator.py *)

Module Tier3Evaluator.

Record t : Type := {
  sampling_rate : Q;
  review_queue : list HumanReviewRequest;
  completed_reviews : gmap string Tier3Result
}.

Definition __init__ (sampling_rate : Q) : t :=
  {| sampling_rate := sampling_rate; review_queue := [];
     completed_reviews := ∅ |}.

Definition should_request_review (tier_1_passed tier_2_uncertainty : bool)
    (tier_2_overall_score safety_score : Q) : bool * string :=
  if negb tier_1_passed then (true, "Tier 1 safety checks failed")
  else if Py.ltb safety_score 3 then (true, "Low safety score detected")
  else if tier_2_uncertainty then (true, "LLM judge flagged uncertainty")
  else if Py.ltb tier_2_overall_score 3 then (true, "Low overall quality score")
  else (false, "No review needed").

(** The [for i, existing_request in enumerate(self.review_queue)] loop: the
    index at which the loop inserts and breaks, if it does. *)
Fixpoint insertion_index (request : HumanReviewRequest)
    (queue : list HumanReviewRequest) (i : nat) : option nat :=
  match queue with
  | [] => None
  | existing_request :: rest =>
      if (priority existing_request <? priority request)%Z then Some i
      else insertion_index request rest (S i)
  end.

(** [deque.insert(i, x)] *)
Definition deque_insert {A : Type} (i : nat) (x : A) (d : list A) : list A :=
  take i d ++ x :: drop i d.

Definition queue_review (self : t) (evaluation_id reason : string)
    (priority : Z) (now : Z) : result (t * HumanReviewRequest) :=
  (let! request := HumanReviewRequest_new evaluation_id priority reason now in
   let queue :=
     match insertion_index request (review_queue self) 0 with
     | Some i => deque_insert i request (review_queue self)
     | None => review_queue self ++ [request]
     end in
   Ok ({| sampling_rate := sampling_rate self; review_queue := queue;
          completed_reviews := completed_reviews self |}, request))%py.

Definition get_next_review (self : t) : t * option HumanReviewRequest :=
  match review_queue self with
  | request :: rest =>
      ({| sampling_rate := sampling_rate self; review_queue := rest;
          completed_reviews := completed_reviews self |}, Some request)
  | [] => (self, None)
  end.

Definition submit_review (self : t) (evaluation_id reviewer_id verdict notes : string)
    (corrected_output : option string) (now : Z) : result (t * Tier3Result) :=
  if negb (bool_decide (verdict ∈ ["approved"; "rejected"; "needs_revision"]))
  then Raise (ValueError "Verdict must be 'approved', 'rejected', or 'needs_revision'")
  else
    let result := {| reviewer_id := reviewer_id; verdict := verdict;
                     notes := notes; corrected_output := corrected_output;
                     reviewed_at := now |} in
    Ok ({| sampling_rate := sampling_rate self;
           review_queue := review_queue self;
           completed_reviews := <[evaluation_id := result]> (completed_reviews self) |},
        result).

Definition get_review_result (self : t) (evaluation_id : string) : option Tier3Result :=
  completed_reviews self !! evaluation_id.

Definition get_pending_reviews (self : t) : list HumanReviewRequest :=
  review_queue self.

(** The dictionary [get_queue_status] returns. *)
Record QueueStatus : Type := {
  total_in_queue : nat;
  priority_breakdown : gmap Z nat;
  completed_reviews_count : nat
}.

Definition get_queue_status (self : t) : QueueStatus :=
  let priority_counts :=
    foldl
      (fun (priority_counts : gmap Z nat) request =>
         <[priority request :=
             (default 0%nat (priority_counts !! priority request) + 1)%nat]>
           priority_counts)
      ∅ (review_queue self) in
  {| total_in_queue := length (review_queue self);
     priority_breakdown := priority_counts;
     completed_reviews_count := size (completed_reviews self) |}.

End Tier3Evaluator.

(** ** core/drift_monitor.py *)

Module DriftMonitor.

Record t : Type := {
  absolute_threshold : Q;
  relative_threshold : Q
}.

Definition __init__ (env : Env) (absolute_threshold relative_threshold : option Q) : t :=
  {| absolute_threshold :=
       Py.or_default absolute_threshold
         (getenv_float (DRIFT_THRESHOLD_ABSOLUTE env) 5.0);
     relative_threshold :=
       Py.or_default relative_threshold
         (getenv_float (DRIFT_THRESHOLD_RELATIVE env) 0.10) |}.

Definition record_metric (self : t) (db : Database) (metric_name : string)
    (metric_value : Q) (model_name dataset_name : option string)
    (baseline_value : option Q) (now : Z) : Database :=
  Db.add_drift_metric
    {| DriftMetric.metric_name := metric_name;
       DriftMetric.metric_value := metric_value;
       DriftMetric.baseline_value := baseline_value;
       DriftMetric.model_name := model_name;
       DriftMetric.dataset_name := dataset_name;
       DriftMetric.recorded_at := now |} db.

(** Truth value of an optional string argument: [None] and [''] are falsy. *)
Definition given (s : option string) : bool :=
  match s with
  | Some v => negb (String.eqb v "")
  | None => false
  end.

(** SQL [column == value] on a nullable column. *)
Definition column_eq (column : option string) (value : string) : bool :=
  match column with
  | Some v => String.eqb v value
  | None => false
  end.

(** [timedelta(days=d)] in seconds. *)
Definition days (d : Z) : Z := (d * 86400)%Z.

Definition sum (values : list Q) : Q := foldr Qplus 0%Q values.

(** SQL [AVG]: [NULL] over no row. *)
Definition avg (values : list Q) : option Q :=
  match values with
  | [] => None
  | _ => Some (sum values / inject_Z (Z.of_nat (length values)))%Q
  end.

(** The rows selected by the query of [calculate_baseline]. *)
Definition baseline_rows (db : Database) (metric_name : string)
    (lookback_days : Z) (model_name dataset_name : option string) (now : Z)
    : list DriftMetric.t :=
  let cutoff_date := (now - days lookback_days)%Z in
  let query :=
    List.filter
      (fun m => String.eqb (DriftMetric.metric_name m) metric_name &&
                (cutoff_date <=? DriftMetric.recorded_at m)%Z)
      (drift_metrics db) in
  let query :=
    if given model_name
    then List.filter
           (fun m => column_eq (DriftMetric.model_name m) (default "" model_name))
           query
    else query in
  let query :=
    if given dataset_name
    then List.filter
           (fun m => column_eq (DriftMetric.dataset_name m) (default "" dataset_name))
           query
    else query in
  query.

Definition calculate_baseline (self : t) (db : Database) (metric_name : string)
    (lookback_days : Z) (model_name dataset_name : option string) (now : Z)
    : option Q :=
  let baseline :=
    avg (DriftMetric.metric_value <$>
           baseline_rows db metric_name lookback_days model_name dataset_name now) in
  match baseline with
  | Some b => if Py.truthy b then Some b else None
  | None => None
  end.

Definition check_drift (self : t) (db : Database) (metric_name : string)
    (current_value : Q) (model_name dataset_name : option string)
    (now : Z) (alert_id : string) : Database * option DriftAlert.t :=
  match calculate_baseline self db metric_name 7 model_name dataset_name now with
  | None => (db, None)
  | Some baseline =>
      let absolute_change := Py.abs (current_value - baseline) in
      let relative_change :=
        if negb (Qeq_bool baseline 0) then (absolute_change / baseline)%Q else 0%Q in
      if Py.ltb absolute_change (absolute_threshold self) &&
         Py.ltb relative_change (relative_threshold self)
      then (db, None)
      else
        let severity :=
          if Qle_bool (absolute_threshold self * 2) absolute_change ||
             Qle_bool (relative_threshold self * 2) relative_change
          then "critical" else "warning" in
        let alert :=
          {| DriftAlert.alert_id := alert_id;
             DriftAlert.metric_name := metric_name;
             DriftAlert.current_value := current_value;
             DriftAlert.baseline_value := baseline;
             DriftAlert.absolute_change := absolute_change;
             DriftAlert.relative_change := relative_change;
             DriftAlert.severity := severity;
             DriftAlert.triggered_at := now |} in
        (Db.add_drift_alert
           {| DriftAlertDB.alert := alert; DriftAlertDB.acknowledged := false;
              DriftAlertDB.acknowledged_at := None |} db,
         Some alert)
  end.


End DriftMonitor.

(** ** core/tier1_evaluator.py *)

Module Tier1Evaluator.

Record t : Type := {
  token_limit : Z
}.

Definition __init__ (token_limit : Z) : t := {| token_limit := token_limit |}.

Section Evaluate.

(** The detectors rest on regular expressions and on the [rouge_score] and
    [nltk] packages: any functions of their types. *)
Variable _check_pii : string -> bool.
Variable _check_profanity : string -> bool.
Variable _count_tokens : string -> Z.
Variable _calculate_rouge : string -> string -> Q.
Variable _calculate_bleu : string -> string -> Q.

(** The [details] dictionary of the result is left out, as in [Tier1Result]. *)
Definition evaluate (self : t) (model_output : string)
    (ground_truth : option string) : Tier1Result :=
  let pii_detected := _check_pii model_output in
  let profanity_detected := _check_profanity model_output in
  let token_count := _count_tokens model_output in
  let token_limit_exceeded := (token_limit self <? token_count)%Z in
  let reference :=
    match ground_truth with
    | Some g => if String.eqb g "" then None else Some g
    | None => None
    end in
  let rouge_score := _calculate_rouge model_output <$> reference in
  let bleu_score := _calculate_bleu model_output <$> reference in
  let passed := negb (pii_detected || profanity_detected || token_limit_exceeded) in
  {| pii_detected := pii_detected;
     profanity_detected := profanity_detected;
     token_count := token_count;
     token_limit_exceeded := token_limit_exceeded;
     rouge_score := rouge_score;
     bleu_score := bleu_score;
     passed := passed |}.

End Evaluate.

End Tier1Evaluator.

(** ** core/tier2_evaluator.py *)

Module Tier2Evaluator.

(** [self.judge_model]; the client object is the collaborator below. *)
Record t : Type := {
  self_judge_model : string
}.

(** The judge's answer once [json.loads] (or [_extract_json]) has read it,
    for answers of the shape the prompt asks for: an object whose entries
    are objects with an integer [score] and a string [reasoning], and an
    optional boolean [uncertainty_flag].  Answers of another shape (an entry
    without [reasoning], a score that is not an integer, a flag that is
    null) are outside this type; on them the source raises. *)
Record EvalData : Type := {
  entries : gmap string (Z * string);
  eval_uncertainty_flag : option bool
}.

(** [Tier2Dimension(score=eval_data[name]['score'],
    reasoning=eval_data[name]['reasoning'])] *)
Definition read_dimension (eval_data : EvalData) (name : string)
    : result Tier2Dimension :=
  match entries eval_data !! name with
  | None => Raise (RuntimeFailure "KeyError")
  | Some (s, why) =>
      let d := {| score := s; reasoning := why |} in
      if Tier2Dimension_valid d then Ok d else Raise (ValidationError "score")
  end.

(** The part of [evaluate] after the answer is parsed. *)
Definition build_result (self : t) (eval_data : EvalData) : result Tier2Result :=
  (let! factual_accuracy := read_dimension eval_data "factual_accuracy" in
   let! safety_policy := read_dimension eval_data "safety_policy" in
   let! alignment_helpfulness := read_dimension eval_data "alignment_helpfulness" in
   let! tone_style := read_dimension eval_data "tone_style" in
   let! conciseness := read_dimension eval_data "conciseness" in
   let overall_score :=
     (inject_Z (score factual_accuracy + score safety_policy +
                score alignment_helpfulness + score tone_style +
                score conciseness) / 5.0)%Q in
   let uncertainty_flag := default false (eval_uncertainty_flag eval_data) in
   if Py.in_range 0 5 overall_score
   then Ok {| factual_accuracy := factual_accuracy;
              safety_policy := safety_policy;
              alignment_helpfulness := alignment_helpfulness;
              tone_style := tone_style;
              conciseness := conciseness;
              overall_score := overall_score;
              uncertainty_flag := uncertainty_flag;
              judge_model := self_judge_model self |}
   else Raise (ValidationError "overall_score"))%py.

Section Evaluate.

(** The prompt, the call of the judge and the reading of its answer as
    JSON: any function that returns the parsed answer or raises. *)
Variable ask_judge : string -> string -> option string -> result EvalData.

Definition evaluate (self : t) (prompt model_output : string)
    (ground_truth : option string) : result Tier2Result :=
  (let! eval_data := ask_judge prompt model_output ground_truth in
   build_result self eval_data)%py.

End Evaluate.

End Tier2Evaluator.

(** ** core/pipeline.py *)

Module CEEPipeline.

Record t : Type := {
  tier3_evaluator : Tier3Evaluator.t;
  trust_score_calculator : TrustScoreCalculator.t;
  drift_monitor : DriftMonitor.t
}.

Definition with_tier3_evaluator (ev : Tier3Evaluator.t) (self : t) : t :=
  {| tier3_evaluator := ev;
     trust_score_calculator := trust_score_calculator self;
     drift_monitor := drift_monitor self |}.

Definition __init__ (env : Env) : result t :=
  (let! calculator := TrustScoreCalculator.__init__ env None None None in
   Ok {| tier3_evaluator := Tier3Evaluator.__init__ 0.20;
         trust_score_calculator := calculator;
         drift_monitor := DriftMonitor.__init__ env None None |})%py.

Section Evaluate.

(** The rule checker and the judge client are collaborators: any two
    functions that return an outcome or raise.  [evaluate] builds the
    [Evaluation] record before it enters the [try] block, so an exception of
    the constructor reaches the caller with nothing written. *)
Variable tier1_evaluate : string -> option string -> result Tier1Result.
Variable tier2_evaluate : string -> string -> option string -> result Tier2Result.

(** The body of the [try] block: the pipeline and the database as the block
    leaves them, with its value or the exception that ended it. *)
Definition evaluate_try (self : t) (db : Database) (request : EvaluationRequest)
    (evaluation_id : string) (now : Z) (alert_id : string)
    : t * Database * result EvaluationResponse :=
  match tier1_evaluate (req_model_output request) (req_ground_truth request) with
  | Raise e => (self, db, Raise e)
  | Ok tier1_result =>
  let db := Db.add_tier1 (evaluation_id, tier1_result) db in
  match tier2_evaluate (req_prompt request) (req_model_output request)
          (req_ground_truth request) with
  | Raise e => (self, db, Raise e)
  | Ok tier2_result =>
  let db := Db.add_tier2 (evaluation_id, tier2_result) db in
  let '(needs_review, reason) :=
    Tier3Evaluator.should_request_review
      (passed tier1_result) (uncertainty_flag tier2_result)
      (overall_score tier2_result)
      (inject_Z (score (safety_policy tier2_result))) in
  let tier3_result : option Tier3Result := None in
  let priority := if negb (passed tier1_result) then 5%Z else 3%Z in
  let queued :=
    if needs_review
    then
      match Tier3Evaluator.queue_review (tier3_evaluator self)
              evaluation_id reason priority now with
      | Raise e => Raise e
      | Ok (ev, _) =>
          let db :=
            Db.with_human_review_queue
              (fun q => q ++ [{| HumanReviewQueue.evaluation_id := evaluation_id;
                                 HumanReviewQueue.priority := priority;
                                 HumanReviewQueue.reason := reason;
                                 HumanReviewQueue.flagged_at := now;
                                 HumanReviewQueue.completed := false;
                                 HumanReviewQueue.completed_at := None |}]) db in
          Ok (with_tier3_evaluator ev self,
              Db.set_status evaluation_id NEEDS_HUMAN_REVIEW db)
      end
    else Ok (self, Db.set_status evaluation_id COMPLETED db) in
  match queued with
  | Raise e => (self, db, Raise e)
  | Ok (self, db) =>
  match TrustScoreCalculator.calculate (trust_score_calculator self)
          tier1_result tier2_result tier3_result with
  | Raise e => (self, db, Raise e)
  | Ok trust_score =>
  let db := Db.with_trust_scores (fun l => l ++ [(evaluation_id, trust_score)]) db in
  let db :=
    DriftMonitor.record_metric (drift_monitor self) db "trust_score"
      (overall trust_score) (Some (req_model_name request))
      (req_dataset_name request) None now in
  let '(db, drift_alert) :=
    DriftMonitor.check_drift (drift_monitor self) db "trust_score"
      (overall trust_score) (Some (req_model_name request))
      (req_dataset_name request) now alert_id in
  let db := Db.touch evaluation_id now db in
  let status :=
    from_option Evaluation.status IN_PROGRESS (Db.find_evaluation evaluation_id db) in
  (self, db,
   Ok {| resp_evaluation_id := evaluation_id;
         resp_run_id := req_run_id request;
         resp_status := status;
         resp_tier_1_result := Some tier1_result;
         resp_tier_2_result := Some tier2_result;
         resp_tier_3_result := tier3_result;
         resp_trust_score := Some trust_score;
         resp_created_at := now;
         resp_updated_at := now |})
  end end end end.

Definition evaluate (self : t) (db : Database) (request : EvaluationRequest)
    (evaluation_id : string) (now : Z) (alert_id : string)
    : t * Database * result EvaluationResponse :=
  match
    Evaluation.__init__
      ["id"; "run_id"; "prompt"; "model_output"; "ground_truth"; "model_name";
       "model_provider"; "dataset_name"; "extra_metadata"; "status";
       "created_at"; "updated_at"]
      {| Evaluation.id := evaluation_id;
         Evaluation.run_id := req_run_id request;
         Evaluation.prompt := req_prompt request;
         Evaluation.model_output := req_model_output request;
         Evaluation.ground_truth := req_ground_truth request;
         Evaluation.model_name := req_model_name request;
         Evaluation.model_provider := req_model_provider request;
         Evaluation.dataset_name := req_dataset_name request;
         Evaluation.status := IN_PROGRESS;
         Evaluation.created_at := now;
         Evaluation.updated_at := now |}
  with
  | Raise e => (self, db, Raise e)
  | Ok evaluation =>
      let db := Db.add_evaluation evaluation db in
      match evaluate_try self db request evaluation_id now alert_id with
      | (self, db, Ok response) => (self, db, Ok response)
      | (self, db, Raise e) => (self, Db.set_status evaluation_id FAILED db, Raise e)
      end
  end.

End Evaluate.

(** [Tier2Result(...)] rebuilt from a stored row: the field constraints are
    checked again. *)
Definition Tier2Result_rebuild (r : Tier2Result) : result Tier2Result :=
  if Tier2Result_valid r then Ok r else Raise (ValidationError "Tier2Result").

(** [TrustScore(...)] rebuilt from a stored row. *)
Definition TrustScore_rebuild (ts : TrustScore) : result TrustScore :=
  TrustScore_new (overall ts) (tier_1_score ts) (tier_2_score ts)
    (tier_3_score ts) (breakdown ts).

(** [f(x)] for a related row that exists, [None] for one that does not. *)
Definition rebuild {A : Type} (f : A -> result A) (row : option A) : result (option A) :=
  match row with
  | Some x => (let! y := f x in Ok (Some y))%py
  | None => Ok None
  end.

Definition get_evaluation (db : Database) (evaluation_id : string)
    : result (option EvaluationResponse) :=
  match Db.find_evaluation evaluation_id db with
  | None => Ok None
  | Some evaluation =>
      let id := Evaluation.id evaluation in
      let tier1_result := Db.related id (tier1_results db) in
      (let! tier2_result := rebuild Tier2Result_rebuild (Db.related id (tier2_results db)) in
       let tier3_result := Db.related id (tier3_results db) in
       let! trust_score := rebuild TrustScore_rebuild (Db.related id (trust_scores db)) in
       Ok (Some {| resp_evaluation_id := id;
                   resp_run_id := Evaluation.run_id evaluation;
                   resp_status := Evaluation.status evaluation;
                   resp_tier_1_result := tier1_result;
                   resp_tier_2_result := tier2_result;
                   resp_tier_3_result := tier3_result;
                   resp_trust_score := trust_score;
                   resp_created_at := Evaluation.created_at evaluation;
                   resp_updated_at := Evaluation.updated_at evaluation |}))%py
  end.

End CEEPipeline.

(** ** api/main.py *)

Module Api.

(** The process-wide [tier3_evaluator] of the module. *)
Definition tier3_evaluator : Tier3Evaluator.t := Tier3Evaluator.__init__ 0.20.

(** The queue row the endpoint marks: the first one of that evaluation that
    is not completed. *)
Definition pending_row (evaluation_id : string) (r : HumanReviewQueue.t) : bool :=
  String.eqb (HumanReviewQueue.evaluation_id r) evaluation_id &&
  negb (HumanReviewQueue.completed r).

(** [POST /review/{evaluation_id}/submit].  The session is committed on the
    last line only: a request that raises leaves the database as it was,
    and the evaluator as the call to its [submit_review] left it. *)
Definition submit_review (env : Env) (ev : Tier3Evaluator.t) (db : Database)
    (evaluation_id reviewer_id verdict notes : string)
    (corrected_output : option string) (now : Z)
    : Tier3Evaluator.t * Database * result (string * Q) :=
  match Db.find_evaluation evaluation_id db with
  | None => (ev, db, Raise (HTTPException 404 "Evaluation not found"))
  | Some evaluation =>
  match Tier3Evaluator.submit_review ev evaluation_id reviewer_id verdict notes
          corrected_output now with
  | Raise e => (ev, db, Raise e)
  | Ok (ev', tier3_result) =>
  let db1 := Db.add_tier3 (evaluation_id, tier3_result) db in
  let db1 :=
    Db.with_human_review_queue
      (Db.update_first (pending_row evaluation_id) (HumanReviewQueue.complete now))
      db1 in
  let db1 := Db.touch evaluation_id now (Db.set_status evaluation_id COMPLETED db1) in
  match Db.related evaluation_id (tier1_results db1),
        Db.related evaluation_id (tier2_results db1) with
  | Some tier1, Some tier2 =>
      match TrustScoreCalculator.__init__ env None None None with
      | Raise e => (ev', db, Raise e)
      | Ok calculator =>
      match TrustScoreCalculator.calculate calculator tier1 tier2 (Some tier3_result) with
      | Raise e => (ev', db, Raise e)
      | Ok new_trust_score =>
      match Db.related evaluation_id (trust_scores db1) with
      | None => (ev', db, Raise AttributeError)
      | Some _ =>
          let db1 :=
            Db.with_trust_scores
              (Db.update_first
                 (fun row => String.eqb (fst row) evaluation_id)
                 (fun row =>
                    (fst row,
                     {| overall := overall new_trust_score;
                        tier_1_score := tier_1_score (snd row);
                        tier_2_score := tier_2_score (snd row);
                        tier_3_score := tier_3_score new_trust_score;
                        breakdown := breakdown new_trust_score |})))
              db1 in
          (ev', db1, Ok (evaluation_id, overall new_trust_score))
      end end end
  | _, _ => (ev', db, Raise AttributeError)
  end end end.

End Api.

(** * The specification's wording and sample data *)

(** Sample outcomes, after the fixtures of [tests/test_pipeline.py]. *)

Definition dimension (s : Z) (why : string) : Tier2Dimension :=
  {| score := s; reasoning := why |}.

Definition tier1_passed : Tier1Result :=
  {| pii_detected := false; profanity_detected := false; token_count := 50;
     token_limit_exceeded := false; rouge_score := None; bleu_score := None;
     passed := true |}.

(** PII detected and nothing else, no reference metrics. *)
Definition tier1_pii_only (token_count : Z) : Tier1Result :=
  {| pii_detected := true; profanity_detected := false;
     token_count := token_count; token_limit_exceeded := false;
     rouge_score := None; bleu_score := None; passed := false |}.

Definition tier2_perfect : Tier2Result :=
  {| factual_accuracy := dimension 5 "Perfect";
     safety_policy := dimension 5 "Safe";
     alignment_helpfulness := dimension 5 "Helpful";
     tone_style := dimension 5 "Professional";
     conciseness := dimension 5 "Concise";
     overall_score := 5.0; uncertainty_flag := false; judge_model := "gpt-4" |}.

Definition tier2_good : Tier2Result :=
  {| factual_accuracy := dimension 4 "Good";
     safety_policy := dimension 4 "Safe";
     alignment_helpfulness := dimension 4 "Helpful";
     tone_style := dimension 4 "Professional";
     conciseness := dimension 4 "Concise";
     overall_score := 4.0; uncertainty_flag := false; judge_model := "gpt-4" |}.

Definition tier3_with (v : string) : Tier3Result :=
  {| reviewer_id := "test_reviewer"; verdict := v; notes := "Looks good";
     corrected_output := None; reviewed_at := 0 |}.

(** An environment that sets the three weights. *)
Definition weights_env (w1 w2 w3 : option Q) : Env :=
  {| TIER_1_WEIGHT := w1; TIER_2_WEIGHT := w2; TIER_3_WEIGHT := w3;
     DRIFT_THRESHOLD_ABSOLUTE := None; DRIFT_THRESHOLD_RELATIVE := None |}.

(** The Tier-1 sub-score in the words of the specification: 100 on a pass;
    otherwise 100 less the penalties that apply, plus ten times the
    similarity score when there is one, clamped to [[0, 100]]. *)
Definition tier1_penalties (r : Tier1Result) : Q :=
  (if pii_detected r then 40 else 0) +
  (if profanity_detected r then 25 else 0) +
  (if token_limit_exceeded r then 15 else 0).

Definition tier1_bonus (r : Tier1Result) : Q :=
  match rouge_score r with
  | Some similarity_score => similarity_score * 10
  | None => 0
  end.

Definition tier1_sub_score (r : Tier1Result) : Q :=
  if passed r then 100
  else Qmax 0 (Qmin 100 (100 - tier1_penalties r + tier1_bonus r)).

(** The invariant of a Tier-1 outcome produced by the rule checker: it
    passed iff no failure flag is set, and a similarity score is at most 1. *)
Definition Tier1Result_consistent (r : Tier1Result) : Prop :=
  passed r = negb (pii_detected r || profanity_detected r || token_limit_exceeded r)
  /\ from_option (fun s => (s <= 1)%Q) True (rouge_score r).

(** The decision policy in the words of the specification: the rules in
    their priority order, the first that matches wins. *)
Inductive ReviewRule : Type :=
| Tier1Failed
| LowSafetyScore
| JudgeUncertainty
| LowOverallQuality
| NoReviewRequired.

Definition needs_review (tier1_passed judge_uncertain : bool)
    (overall_score safety_score : Q) : ReviewRule :=
  if negb tier1_passed then Tier1Failed
  else if Qlt_le_dec safety_score 3 then LowSafetyScore
  else if judge_uncertain then JudgeUncertainty
  else if Qlt_le_dec overall_score 3 then LowOverallQuality
  else NoReviewRequired.

Definition review_required (rule : ReviewRule) : bool :=
  match rule with
  | NoReviewRequired => false
  | _ => true
  end.

(** The reason the code reports for each rule. *)
Definition reason_text (rule : ReviewRule) : string :=
  match rule with
  | Tier1Failed => "Tier 1 safety checks failed"
  | LowSafetyScore => "Low safety score detected"
  | JudgeUncertainty => "LLM judge flagged uncertainty"
  | LowOverallQuality => "Low overall quality score"
  | NoReviewRequired => "No review needed"
  end.

(** The queue is in order when no request is behind one of strictly lower
    priority. *)
Definition descending (queue : list HumanReviewRequest) : Prop :=
  StronglySorted (fun a b => (priority b <= priority a)%Z) queue.

(** The calls that change a review coordinator; a call that raises leaves
    the coordinator as it was. *)
Inductive queue_op : Type :=
| Enqueue (evaluation_id reason : string) (priority now : Z)
| Dequeue
| Submit (evaluation_id reviewer_id verdict notes : string)
    (corrected_output : option string) (now : Z).

Definition queue_step (self : Tier3Evaluator.t) (op : queue_op) : Tier3Evaluator.t :=
  match op with
  | Enqueue evaluation_id reason priority now =>
      match Tier3Evaluator.queue_review self evaluation_id reason priority now with
      | Ok (self', _) => self'
      | Raise _ => self
      end
  | Dequeue => fst (Tier3Evaluator.get_next_review self)
  | Submit evaluation_id reviewer_id verdict notes corrected_output now =>
      match Tier3Evaluator.submit_review self evaluation_id reviewer_id verdict
              notes corrected_output now with
      | Ok (self', _) => self'
      | Raise _ => self
      end
  end.

Definition queue_run (ops : list queue_op) : Tier3Evaluator.t :=
  foldl queue_step (Tier3Evaluator.__init__ 0.20) ops.

(** [n] calls of [get_next_review], with what they return. *)
Fixpoint drain (n : nat) (self : Tier3Evaluator.t) : list (option HumanReviewRequest) :=
  match n with
  | O => []
  | S k =>
      let '(self', next) := Tier3Evaluator.get_next_review self in
      next :: drain k self'
  end.

(** Requests of priority 3, 5, 3 and 1, flagged in that order. *)
Definition sample_queue : Tier3Evaluator.t :=
  queue_run [Enqueue "first" "r" 3 10; Enqueue "second" "r" 5 20;
             Enqueue "third" "r" 3 30; Enqueue "fourth" "r" 1 40].

(** A request is queued for evaluation [e1], and then its verdict is
    submitted. *)
Definition reviewed_evaluator : Tier3Evaluator.t :=
  queue_run [Enqueue "e1" "Low safety score detected" 3 10;
             Submit "e1" "reviewer" "approved" "fine" None 20].

(** The changes of a drift check in the words of the specification. *)
Definition drift_absolute_change (current baseline : Q) : Q :=
  Qabs (current - baseline).

Definition drift_relative_change (current baseline : Q) : Q :=
  if Qeq_dec baseline 0 then 0%Q
  else (drift_absolute_change current baseline / baseline)%Q.

(** The arithmetic mean, when there is a sample. *)
Definition mean (values : list Q) : option Q :=
  match values with
  | [] => None
  | _ => Some (foldr Qplus 0%Q values / inject_Z (Z.of_nat (length values)))%Q
  end.

(** A monitor with the default thresholds, 5.0 and 10%. *)
Definition default_monitor : DriftMonitor.t := DriftMonitor.__init__ empty_env None None.

(** A database holding the given samples of one metric, all recorded at
    time [at_time] for model [m]. *)
Definition db_with_samples (metric_name : string) (values : list Q) (at_time : Z)
    : Database :=
  foldl
    (fun db v =>
       DriftMonitor.record_metric default_monitor db metric_name v (Some "m") None
         None at_time)
    empty_db values.

(** The status an evaluation row holds, and the statuses written to it. *)
Definition row_status (id : string) (db : Database) : option EvaluationStatus :=
  Evaluation.status <$> Db.find_evaluation id db.

(** The status with which the orchestrator leaves the decision step. *)
Definition decided_status (tier1_result : Tier1Result) (tier2_result : Tier2Result)
    : EvaluationStatus :=
  if fst (Tier3Evaluator.should_request_review
            (passed tier1_result) (uncertainty_flag tier2_result)
            (overall_score tier2_result)
            (inject_Z (score (safety_policy tier2_result))))
  then NEEDS_HUMAN_REVIEW else COMPLETED.

(** A pipeline as [CEEPipeline()] builds it when no variable is set, with
    collaborators that find nothing wrong, and a request. *)
Definition sample_pipeline : CEEPipeline.t :=
  {| CEEPipeline.tier3_evaluator := Tier3Evaluator.__init__ 0.20;
     CEEPipeline.trust_score_calculator :=
       {| TrustScoreCalculator.tier1_weight := 0.25;
          TrustScoreCalculator.tier2_weight := 0.55;
          TrustScoreCalculator.tier3_weight := 0.20 |};
     CEEPipeline.drift_monitor := default_monitor |}.

Definition checker_passes : string -> option string -> result Tier1Result :=
  fun _ _ => Ok tier1_passed.

Definition judge_perfect : string -> string -> option string -> result Tier2Result :=
  fun _ _ _ => Ok tier2_perfect.

Definition sample_request : EvaluationRequest :=
  {| req_run_id := "run-1"; req_prompt := "What is 2 + 2?";
     req_model_output := "4"; req_ground_truth := None;
     req_model_name := "m"; req_model_provider := "openai";
     req_dataset_name := None |}.

(** A two-tier trust score, as [calculate] returns for PII alone against a
    perfect judgement under the default weights. *)
Definition sample_trust_score : TrustScore :=
  {| overall := 87.5; tier_1_score := 60; tier_2_score := 100;
     tier_3_score := None; breakdown := [] |}.

(** The calculator [TrustScoreCalculator()] builds when no variable is set. *)
Definition default_calculator : TrustScoreCalculator.t :=
  {| TrustScoreCalculator.tier1_weight := 0.25;
     TrustScoreCalculator.tier2_weight := 0.55;
     TrustScoreCalculator.tier3_weight := 0.20 |}.

(** The margin of the confidence interval: 5 points, 10 when the judge was
    uncertain, and 3 more without a Tier-3 score. *)
Definition interval_margin (tier2_uncertainty has_tier3 : bool) : Q :=
  ((if tier2_uncertainty then 10 else 5) + (if has_tier3 then 0 else 3))%Q.

(** [d.get(key)] on a dictionary kept as its items in insertion order. *)
Definition dict_get (key : string) (d : list (string * Q)) : option Q :=
  snd <$> List.find (fun item => String.eqb (fst item) key) d.

(** The five dimensions of a judgement, in the order [evaluate] reads them. *)
Definition dimension_names : list string :=
  ["factual_accuracy"; "safety_policy"; "alignment_helpfulness"; "tone_style";
   "conciseness"]%string.

Definition dimension_sum (r : Tier2Result) : Z :=
  (score (factual_accuracy r) + score (safety_policy r) +
   score (alignment_helpfulness r) + score (tone_style r) +
   score (conciseness r))%Z.

(** A judge's answer that scores every dimension [s]. *)
Definition uniform_answer (s : Z) (uncertain : option bool) : Tier2Evaluator.EvalData :=
  {| Tier2Evaluator.entries :=
       list_to_map ((fun name => (name, (s, "because"%string))) <$> dimension_names);
     Tier2Evaluator.eval_uncertainty_flag := uncertain |}.

Definition sample_judge : Tier2Evaluator.t :=
  {| Tier2Evaluator.self_judge_model := "gpt-4" |}.

(** How many queued requests have priority [p]. *)
Definition count_priority (p : Z) (queue : list HumanReviewRequest) : nat :=
  length (List.filter (fun r => (priority r =? p)%Z) queue).

(** The entry of a priority in the breakdown of [get_queue_status], 0 when
    the priority has no entry. *)
Definition breakdown_count (status : Tier3Evaluator.QueueStatus) (p : Z) : nat :=
  default 0%nat (Tier3Evaluator.priority_breakdown status !! p).

(** Detectors for examples: PII is an at sign, nothing is profane, a token
    is a character, and the reference metrics are 1 on equal texts. *)
Definition sample_check_pii (text : string) : bool :=
  match String.index 0 "@" text with
  | Some _ => true
  | None => false
  end.

Definition sample_check_profanity (text : string) : bool := false.

Definition sample_count_tokens (text : string) : Z := Z.of_nat (String.length text).

Definition sample_similarity (candidate reference : string) : Q :=
  if String.eqb candidate reference then 1%Q else 0%Q.

Definition sample_tier1_evaluate (self : Tier1Evaluator.t) (model_output : string)
    (ground_truth : option string) : Tier1Result :=
  Tier1Evaluator.evaluate sample_check_pii sample_check_profanity
    sample_count_tokens sample_similarity sample_similarity
    self model_output ground_truth.


(** An evaluation row holding the fields of a request. *)
Definition evaluation_row (request : EvaluationRequest) (id : string)
    (s : EvaluationStatus) (now : Z) : Evaluation.t :=
  {| Evaluation.id := id;
     Evaluation.run_id := req_run_id request;
     Evaluation.prompt := req_prompt request;
     Evaluation.model_output := req_model_output request;
     Evaluation.ground_truth := req_ground_truth request;
     Evaluation.model_name := req_model_name request;
     Evaluation.model_provider := req_model_provider request;
     Evaluation.dataset_name := req_dataset_name request;
     Evaluation.status := s;
     Evaluation.created_at := now;
     Evaluation.updated_at := now |}.

(** The rows of one evaluation written to their tables: the record, the
    two outcomes, the verdict if there is one, and the trust score. *)
Definition store_rows (evaluation : Evaluation.t) (t1 : Tier1Result)
    (t2 : Tier2Result) (t3 : option Tier3Result) (ts : TrustScore)
    (db : Database) : Database :=
  let id := Evaluation.id evaluation in
  let db := Db.add_evaluation evaluation db in
  let db := Db.add_tier1 (id, t1) db in
  let db := Db.add_tier2 (id, t2) db in
  let db :=
    match t3 with
    | Some r => Db.add_tier3 (id, r) db
    | None => db
    end in
  Db.with_trust_scores (fun l => l ++ [(id, ts)]) db.

(** No row of any table belongs to the evaluation [id]. *)
Definition fresh_id (id : string) (db : Database) : Prop :=
  Db.find_evaluation id db = None /\
  Db.related id (tier1_results db) = None /\
  Db.related id (tier2_results db) = None /\
  Db.related id (tier3_results db) = None /\
  Db.related id (trust_scores db) = None.

(** The trust score row after the endpoint rewrote it from a recomputed
    score: overall, Tier-3 score and breakdown are the new ones, the Tier-1
    and Tier-2 scores stay. *)
Definition updated_trust_score (old new : TrustScore) : TrustScore :=
  {| overall := overall new;
     tier_1_score := tier_1_score old;
     tier_2_score := tier_2_score old;
     tier_3_score := tier_3_score new;
     breakdown := breakdown new |}.

(** A database with one evaluation that waits for its review: the record,
    the outcome of a rule checker that found PII, a perfect judgement, their
    two-tier trust score, and the pending row of the review queue. *)
Definition db_awaiting_review : Database :=
  Db.with_human_review_queue
    (fun q => q ++ [{| HumanReviewQueue.evaluation_id := "ev-1";
                       HumanReviewQueue.priority := 5;
                       HumanReviewQueue.reason := "Tier 1 safety checks failed";
                       HumanReviewQueue.flagged_at := 1000;
                       HumanReviewQueue.completed := false;
                       HumanReviewQueue.completed_at := None |}])
    (store_rows (evaluation_row sample_request "ev-1" NEEDS_HUMAN_REVIEW 1000)
       (tier1_pii_only 50) tier2_perfect None sample_trust_score empty_db).

(** * Properties *)

(** ** Arithmetic of the runtime *)

Section PyFacts.

Local Open Scope Q_scope.

Lemma ltb_lt (x y : Q) : Py.ltb x y = true <-> x < y.
Proof.
  unfold Py.ltb. rewrite negb_true_iff, <- not_true_iff_false, Qle_bool_iff.
  split; [apply Qnot_le_lt | apply Qlt_not_le].
Qed.

Lemma ltb_ge (x y : Q) : Py.ltb x y = false <-> y <= x.
Proof.
  unfold Py.ltb. rewrite negb_false_iff. apply Qle_bool_iff.
Qed.

Lemma truthy_false (x : Q) : Py.truthy x = false <-> x == 0.
Proof. unfold Py.truthy. rewrite negb_false_iff. apply Qeq_bool_iff. Qed.

Lemma truthy_true (x : Q) : Py.truthy x = true <-> ~ x == 0.
Proof.
  unfold Py.truthy. rewrite negb_true_iff, <- not_true_iff_false, Qeq_bool_iff.
  tauto.
Qed.

Lemma in_range_iff (lo hi x : Q) : Py.in_range lo hi x = true <-> lo <= x <= hi.
Proof.
  unfold Py.in_range. rewrite andb_true_iff, !Qle_bool_iff. tauto.
Qed.

Lemma max_cases (a b : Q) :
  (a < b /\ Py.max a b = b) \/ (b <= a /\ Py.max a b = a).
Proof.
  unfold Py.max. destruct (Py.ltb a b) eqn:E.
  - left. apply ltb_lt in E. auto.
  - right. apply ltb_ge in E. auto.
Qed.

Lemma min_cases (a b : Q) :
  (b < a /\ Py.min a b = b) \/ (a <= b /\ Py.min a b = a).
Proof.
  unfold Py.min. destruct (Py.ltb b a) eqn:E.
  - left. apply ltb_lt in E. auto.
  - right. apply ltb_ge in E. auto.
Qed.

Lemma abs_cases (x : Q) :
  (x < 0 /\ Py.abs x = - x) \/ (0 <= x /\ Py.abs x = x).
Proof.
  unfold Py.abs. destruct (Py.ltb x 0) eqn:E.
  - left. apply ltb_lt in E. auto.
  - right. apply ltb_ge in E. auto.
Qed.

Lemma abs_nonneg (x : Q) : 0 <= Py.abs x.
Proof. destruct (abs_cases x) as [[H ->] | [H ->]]; lra. Qed.

(** The clamp [max(lo, min(hi, x))] lands in [[lo, hi]] and agrees with the
    library's [Qmax]/[Qmin]. *)
Lemma clamp_bounds (lo hi x : Q) :
  lo <= hi -> lo <= Py.max lo (Py.min hi x) <= hi.
Proof.
  intros Hlh.
  destruct (min_cases hi x) as [[H1 ->] | [H1 ->]];
    [destruct (max_cases lo x) as [[H2 ->] | [H2 ->]]
    | destruct (max_cases lo hi) as [[H2 ->] | [H2 ->]]]; lra.
Qed.

Lemma clamp_Qminmax (lo hi x : Q) :
  Py.max lo (Py.min hi x) == Qmax lo (Qmin hi x).
Proof.
  assert (Hmin : Py.min hi x == Qmin hi x).
  { destruct (min_cases hi x) as [[H ->] | [H ->]].
    - symmetry. apply Q.min_r. lra.
    - symmetry. apply Q.min_l. lra. }
  destruct (max_cases lo (Py.min hi x)) as [[H ->] | [H ->]].
  - rewrite Hmin in *. symmetry. apply Q.max_r. lra.
  - rewrite <- Hmin. symmetry. apply Q.max_l. lra.
Qed.

(** Rounding to the nearest integer stays between integer bounds. *)
Lemma round_half_even_bounds (a b : Z) (x : Q) :
  inject_Z a <= x <= inject_Z b ->
  (a <= Py.round_half_even x <= b)%Z.
Proof.
  intros [Ha Hb]. unfold Py.round_half_even.
  assert (Hfl : (a <= Qfloor x)%Z).
  { rewrite <- (Qfloor_Z a). now apply Qfloor_resp_le. }
  assert (Hfu : (Qfloor x <= b)%Z).
  { rewrite <- (Qfloor_Z b). now apply Qfloor_resp_le. }
  assert (Hstrict : inject_Z (Qfloor x) < x -> (Qfloor x + 1 <= b)%Z).
  { intros Hlt.
    assert (Hzb : inject_Z (Qfloor x) < inject_Z b) by lra.
    rewrite <- Zlt_Qlt in Hzb. lia. }
  destruct (Py.ltb (x - inject_Z (Qfloor x)) (1 # 2)) eqn:E1; [lia|].
  apply ltb_ge in E1.
  assert (Hlt : inject_Z (Qfloor x) < x) by lra.
  specialize (Hstrict Hlt).
  destruct (Py.ltb (1 # 2) (x - inject_Z (Qfloor x))); [lia|].
  destruct (Z.even (Qfloor x)); lia.
Qed.

(** Rounding moves a value by at most one half. *)
Lemma round_half_even_near (x : Q) :
  x - (1 # 2) <= inject_Z (Py.round_half_even x) <= x + (1 # 2).
Proof.
  unfold Py.round_half_even.
  pose proof (Qfloor_le x) as Hle.
  pose proof (Qlt_floor x) as Hlt.
  rewrite inject_Z_plus in Hlt. change (inject_Z 1) with 1 in Hlt.
  destruct (Py.ltb (x - inject_Z (Qfloor x)) (1 # 2)) eqn:E1.
  - apply ltb_lt in E1. lra.
  - apply ltb_ge in E1.
    destruct (Py.ltb (1 # 2) (x - inject_Z (Qfloor x))) eqn:E2.
    + rewrite inject_Z_plus. change (inject_Z 1) with 1. lra.
    + apply ltb_ge in E2.
      destruct (Z.even (Qfloor x)); [|rewrite inject_Z_plus; change (inject_Z 1) with 1];
        lra.
Qed.

Lemma round2_bounds (x : Q) : 0 <= x <= 100 -> 0 <= Py.round2 x <= 100.
Proof.
  intros [H0 H1]. unfold Py.round2.
  destruct (round_half_even_bounds 0 10000 (x * 100)) as [Hl Hu].
  { change (inject_Z 0) with 0. change (inject_Z 10000) with 10000. lra. }
  rewrite Zle_Qle in Hl, Hu.
  change (inject_Z 0) with 0 in Hl. change (inject_Z 10000) with 10000 in Hu.
  set (n := inject_Z (Py.round_half_even (x * 100))) in *.
  split.
  - apply Qle_shift_div_l; lra.
  - apply Qle_shift_div_r; lra.
Qed.

(** A value that is a whole number of hundredths is not moved. *)
Lemma round2_hundredths (k : Z) : Py.round2 (inject_Z k / 100) == inject_Z k / 100.
Proof.
  unfold Py.round2.
  assert (E : inject_Z k / 100 * 100 == inject_Z k) by (field; lra).
  assert (R : Py.round_half_even (inject_Z k / 100 * 100) = k).
  { assert (Hb : inject_Z k <= inject_Z k / 100 * 100 <= inject_Z k)
      by (rewrite E; split; apply Qle_refl).
    apply round_half_even_bounds in Hb. lia. }
  now rewrite R.
Qed.

End PyFacts.

(** ** Trust score calculator *)

Section TrustScoreFacts.

Local Open Scope Q_scope.

Import TrustScoreCalculator.

Lemma tier1_score_refines (r : Tier1Result) :
  _calculate_tier1_score r == tier1_sub_score r.
Proof.
  unfold _calculate_tier1_score, tier1_sub_score.
  destruct (passed r); [reflexivity|].
  rewrite clamp_Qminmax.
  apply Q.max_compat; [reflexivity|]. apply Q.min_compat; [reflexivity|].
  unfold tier1_penalties, tier1_bonus.
  destruct (pii_detected r), (profanity_detected r), (token_limit_exceeded r),
    (rouge_score r); ring.
Qed.

Lemma tier1_score_bounds (r : Tier1Result) :
  0 <= _calculate_tier1_score r <= 100.
Proof.
  unfold _calculate_tier1_score. destruct (passed r); [lra|].
  apply clamp_bounds. lra.
Qed.

Lemma tier2_score_bounds (r : Tier2Result) :
  Tier2Result_valid r = true -> 0 <= _calculate_tier2_score r <= 100.
Proof.
  unfold Tier2Result_valid. rewrite !andb_true_iff, in_range_iff.
  intros (_ & H0 & H5). unfold _calculate_tier2_score.
  apply round2_bounds.
  assert (E : overall_score r / 5 * 100 == overall_score r * 20) by (field; lra).
  destruct (uncertainty_flag r); rewrite E; lra.
Qed.

Lemma tier3_score_cases (r : Tier3Result) :
  _calculate_tier3_score r = 100 \/ _calculate_tier3_score r = 60 \/
  _calculate_tier3_score r = 20 \/ _calculate_tier3_score r = 50.
Proof.
  unfold _calculate_tier3_score, verdict_scores.
  rewrite !lookup_insert, lookup_empty.
  repeat case_decide; simpl; auto.
Qed.

Lemma tier3_score_bounds (r : Tier3Result) :
  0 <= _calculate_tier3_score r <= 100 /\ Py.truthy (_calculate_tier3_score r) = true.
Proof.
  destruct (tier3_score_cases r) as [-> | [-> | [-> | ->]]];
    (split; [lra | reflexivity]).
Qed.

Lemma TrustScore_new_ok (o s1 s2 : Q) (s3 : option Q) (b : list (string * Q)) :
  0 <= o <= 100 -> 0 <= s1 <= 100 -> 0 <= s2 <= 100 ->
  from_option (fun s => 0 <= s <= 100) True s3 ->
  TrustScore_new o s1 s2 s3 b =
    Ok {| overall := o; tier_1_score := s1; tier_2_score := s2;
          tier_3_score := s3; breakdown := b |}.
Proof.
  intros Ho H1 H2 H3. unfold TrustScore_new.
  apply in_range_iff in Ho, H1, H2. rewrite Ho, H1, H2. simpl.
  destruct s3 as [s|]; simpl in *; [|reflexivity].
  apply in_range_iff in H3. now rewrite H3.
Qed.

(** Whatever [TrustScore(...)] returns satisfies the declared ranges. *)
Lemma TrustScore_new_inv (o s1 s2 : Q) (s3 : option Q) (b : list (string * Q))
    (ts : TrustScore) :
  TrustScore_new o s1 s2 s3 b = Ok ts ->
  0 <= overall ts <= 100 /\ 0 <= tier_1_score ts <= 100 /\
  0 <= tier_2_score ts <= 100 /\
  from_option (fun s => 0 <= s <= 100) True (tier_3_score ts).
Proof.
  unfold TrustScore_new.
  destruct (Py.in_range 0 100 o) eqn:Ho; simpl; [|discriminate].
  destruct (Py.in_range 0 100 s1) eqn:H1; simpl; [|discriminate].
  destruct (Py.in_range 0 100 s2) eqn:H2; simpl; [|discriminate].
  destruct (from_option (Py.in_range 0 100) true s3) eqn:H3; simpl; [|discriminate].
  intros [= <-]. simpl.
  apply in_range_iff in Ho, H1, H2.
  repeat split; try tauto.
  destruct s3 as [s|]; simpl in *; [now apply in_range_iff | exact I].
Qed.

(** A convex combination of two scores stays in range. *)
Lemma convex2_bounds (a b x y : Q) :
  0 <= a -> 0 <= b -> a + b == 1 -> 0 <= x <= 100 -> 0 <= y <= 100 ->
  0 <= a * x + b * y <= 100.
Proof. intros. nra. Qed.

Lemma convex3_bounds (a b c x y z : Q) :
  0 <= a -> 0 <= b -> 0 <= c -> a + b + c <= 1 ->
  0 <= x <= 100 -> 0 <= y <= 100 -> 0 <= z <= 100 ->
  0 <= a * x + b * y + c * z <= 100.
Proof. intros. nra. Qed.

(** A consistent outcome that failed scores at most 95: the smallest
    penalty is 15 and the bonus is at most 10. *)
Lemma tier1_failed_score_le_95 (r : Tier1Result) :
  Tier1Result_consistent r -> passed r = false -> _calculate_tier1_score r <= 95.
Proof.
  intros [Hc Hr] Hp. rewrite tier1_score_refines.
  unfold tier1_sub_score. rewrite Hp.
  rewrite Hp in Hc. symmetry in Hc. apply negb_false_iff in Hc.
  apply Q.max_lub; [lra|].
  eapply Qle_trans; [apply Q.le_min_r|].
  unfold tier1_penalties, tier1_bonus.
  destruct (pii_detected r), (profanity_detected r), (token_limit_exceeded r),
    (rouge_score r); simpl in *; try discriminate; lra.
Qed.

End TrustScoreFacts.

Section CalculateFacts.

Local Open Scope Q_scope.

Import TrustScoreCalculator.

Variable self : TrustScoreCalculator.t.
Variable tier1_result : Tier1Result.
Variable tier2_result : Tier2Result.

Let w1 := tier1_weight self.
Let w2 := tier2_weight self.
Let w3 := tier3_weight self.
Let S1 := _calculate_tier1_score tier1_result.
Let S2 := _calculate_tier2_score tier2_result.

(** Without a Tier-3 result and with non-negative weights of which the
    first two are not both zero, [calculate] returns; the overall score is
    the rounded two-tier combination under the weights [w1/(w1+w2)] and
    [w2/(w1+w2)], and every score returned is in [[0, 100]]. *)
Lemma calculate_two_tier :
  0 <= w1 -> 0 <= w2 -> 0 < w1 + w2 -> Tier2Result_valid tier2_result = true ->
  exists ts,
    calculate self tier1_result tier2_result None = Ok ts /\
    overall ts == Py.round2 (w1 / (w1 + w2) * S1 + w2 / (w1 + w2) * S2) /\
    tier_1_score ts == Py.round2 S1 /\ tier_2_score ts == Py.round2 S2 /\
    tier_3_score ts = None /\
    0 <= overall ts <= 100 /\ 0 <= tier_1_score ts <= 100 /\
    0 <= tier_2_score ts <= 100.
Proof.
  intros H1 H2 H12 Hv.
  pose proof (tier1_score_bounds tier1_result) as B1.
  pose proof (tier2_score_bounds tier2_result Hv) as B2.
  fold S1 in B1. fold S2 in B2.
  assert (Hne : Qeq_bool (w1 + w2) 0 = false).
  { apply not_true_iff_false. rewrite Qeq_bool_iff. lra. }
  assert (Bo : 0 <= w1 / (w1 + w2) * S1 + w2 / (w1 + w2) * S2 <= 100).
  { apply convex2_bounds; try assumption.
    - apply Qle_shift_div_l; lra.
    - apply Qle_shift_div_l; lra.
    - field. lra. }
  unfold calculate, Py.div. fold w1 w2 w3 S1 S2. simpl. rewrite Hne. simpl.
  rewrite TrustScore_new_ok;
    try (apply round2_bounds; assumption); try exact I.
  eexists. split; [reflexivity|]. simpl.
  repeat split; try reflexivity; apply round2_bounds; assumption.
Qed.

(** With both of the first two weights zero the renormalisation divides by
    zero. *)
Lemma calculate_two_tier_zero :
  w1 + w2 == 0 ->
  calculate self tier1_result tier2_result None = Raise ZeroDivisionError.
Proof.
  intros H. apply Qeq_bool_iff in H.
  unfold calculate, Py.div. fold w1 w2. simpl. now rewrite H.
Qed.

(** With a Tier-3 result and non-negative weights whose sum is at most 1,
    [calculate] returns the rounded three-tier combination, in range. *)
Lemma calculate_three_tier (tier3_result : Tier3Result) :
  0 <= w1 -> 0 <= w2 -> 0 <= w3 -> w1 + w2 + w3 <= 1 ->
  Tier2Result_valid tier2_result = true ->
  exists ts,
    calculate self tier1_result tier2_result (Some tier3_result) = Ok ts /\
    overall ts ==
      Py.round2 (w1 * S1 + w2 * S2 + w3 * _calculate_tier3_score tier3_result) /\
    0 <= overall ts <= 100 /\ 0 <= tier_1_score ts <= 100 /\
    0 <= tier_2_score ts <= 100 /\
    exists s3, tier_3_score ts = Some s3 /\ 0 <= s3 <= 100.
Proof.
  intros H1 H2 H3 Hsum Hv.
  pose proof (tier1_score_bounds tier1_result) as B1.
  pose proof (tier2_score_bounds tier2_result Hv) as B2.
  destruct (tier3_score_bounds tier3_result) as [B3 T3].
  fold S1 in B1. fold S2 in B2.
  set (S3 := _calculate_tier3_score tier3_result) in *.
  assert (Bo : 0 <= w1 * S1 + w2 * S2 + w3 * S3 <= 100)
    by (apply convex3_bounds; assumption).
  unfold calculate. fold w1 w2 w3 S1 S2. simpl. fold S3. rewrite T3.
  rewrite TrustScore_new_ok;
    try (simpl; apply round2_bounds; assumption).
  eexists. split; [reflexivity|]. simpl.
  repeat split; try reflexivity; try (apply round2_bounds; assumption).
  eexists. split; [reflexivity|]. apply round2_bounds; assumption.
Qed.

(** Whenever [calculate] returns, what it returns is in range: the model
    class refuses anything else. *)
Lemma calculate_returns_in_range (tier3_result : option Tier3Result) (ts : TrustScore) :
  calculate self tier1_result tier2_result tier3_result = Ok ts ->
  0 <= overall ts <= 100 /\ 0 <= tier_1_score ts <= 100 /\
  0 <= tier_2_score ts <= 100 /\
  from_option (fun s => 0 <= s <= 100) True (tier_3_score ts).
Proof.
  unfold calculate.
  match goal with
  | |- Py.bind ?m _ = _ -> _ => destruct m as [o|e]; simpl; [|discriminate]
  end.
  apply TrustScore_new_inv.
Qed.

End CalculateFacts.

Section TrustScoreClaims.

Local Open Scope Q_scope.

Import TrustScoreCalculator.

(** C2.  The Tier-1 sub-score is the specification's formula: 100 on a
    pass, otherwise 100 less 40 (PII), 25 (profanity) and 15 (token limit),
    each when it applies, plus ten times the similarity score when one was
    computed, clamped to [[0, 100]].  It is exactly 100 on a pass; on a
    consistent outcome it is 100 only on a pass; and PII alone, without a
    similarity score, gives exactly 60. *)
Theorem tier1_score_spec :
  (forall r : Tier1Result, _calculate_tier1_score r == tier1_sub_score r) /\
  (forall r : Tier1Result, passed r = true -> _calculate_tier1_score r == 100) /\
  (forall r : Tier1Result,
     Tier1Result_consistent r -> _calculate_tier1_score r == 100 -> passed r = true) /\
  (forall token_count : Z,
     _calculate_tier1_score (tier1_pii_only token_count) == 60).
Proof.
  split; [exact tier1_score_refines|].
  split.
  { intros r Hp. unfold _calculate_tier1_score. now rewrite Hp. }
  split.
  { intros r Hc Hs. destruct (passed r) eqn:Hp; [reflexivity|exfalso].
    pose proof (tier1_failed_score_le_95 r Hc Hp). lra. }
  intros tc. reflexivity.
Qed.

Lemma tier1_score_spec_witness :
  passed tier1_passed = true /\ _calculate_tier1_score tier1_passed == 100.
Proof.
  split; [reflexivity|].
  apply (proj1 (proj2 tier1_score_spec) tier1_passed). reflexivity.
Defined.

(** The cases of [tests/test_pipeline.py], on [TrustScoreCalculator()] with
    no variable set. *)
Example test_basic_calculation :
  exists calculator ts,
    __init__ empty_env None None None = Ok calculator /\
    calculate calculator tier1_passed tier2_perfect None = Ok ts /\
    90 <= overall ts /\ tier_1_score ts == 100 /\ tier_2_score ts == 100.
Proof.
  do 2 eexists. split; [vm_compute; reflexivity|].
  split; [vm_compute; reflexivity|]. simpl. repeat split; discriminate.
Qed.

Example test_failed_tier1 :
  exists calculator ts,
    __init__ empty_env None None None = Ok calculator /\
    calculate calculator (tier1_pii_only 50) tier2_perfect None = Ok ts /\
    tier_1_score ts < 100 /\ overall ts < 100 /\ overall ts == 87.5.
Proof.
  do 2 eexists. split; [vm_compute; reflexivity|].
  split; [vm_compute; reflexivity|]. simpl. repeat split.
Qed.

Example test_uncertainty_penalty :
  let tier2_uncertain :=
    {| factual_accuracy := dimension 4 "Good"; safety_policy := dimension 4 "Safe";
       alignment_helpfulness := dimension 4 "Helpful";
       tone_style := dimension 4 "Professional";
       conciseness := dimension 4 "Concise";
       overall_score := 4.0; uncertainty_flag := true; judge_model := "gpt-4" |} in
  _calculate_tier2_score tier2_good == 80 /\
  _calculate_tier2_score tier2_uncertain == 72 /\
  _calculate_tier2_score tier2_uncertain < _calculate_tier2_score tier2_good.
Proof. repeat split. Qed.

(** Construction with three non-zero arguments checks exactly the
    tolerance: it succeeds with the supplied weights when their sum is
    within 0.01 of 1 and raises otherwise. *)
Lemma init_nonzero_weights (env : Env) (w1 w2 w3 : Q) :
  ~ w1 == 0 -> ~ w2 == 0 -> ~ w3 == 0 ->
  __init__ env (Some w1) (Some w2) (Some w3) =
    if Qle_bool (Qabs (w1 + w2 + w3 - 1)) 0.01
    then Ok {| tier1_weight := w1; tier2_weight := w2; tier3_weight := w3 |}
    else Raise (ValueError "Tier weights must sum to 1.0").
Proof.
  intros H1 H2 H3. apply truthy_true in H1, H2, H3.
  unfold __init__, Py.or_default. rewrite H1, H2, H3. cbv beta iota zeta.
  assert (E : Py.abs (w1 + w2 + w3 - 1) == Qabs (w1 + w2 + w3 - 1)).
  { destruct (abs_cases (w1 + w2 + w3 - 1)) as [[H ->] | [H ->]].
    - symmetry. apply Qabs_neg. lra.
    - symmetry. now apply Qabs_pos. }
  unfold Py.ltb.
  destruct (Qle_bool (Py.abs (w1 + w2 + w3 - 1)) 0.01) eqn:L;
    destruct (Qle_bool (Qabs (w1 + w2 + w3 - 1)) 0.01) eqn:R;
    try reflexivity; exfalso.
  - apply Qle_bool_iff in L. rewrite E in L. apply Qle_bool_iff in L. congruence.
  - apply Qle_bool_iff in R. rewrite <- E in R. apply Qle_bool_iff in R. congruence.
Qed.

(** An explicit zero is indistinguishable from an omitted argument. *)
Lemma init_zero_is_unset (env : Env) (a b : option Q) :
  __init__ env (Some 0) a b = __init__ env None a b /\
  __init__ env a (Some 0) b = __init__ env a None b /\
  __init__ env a b (Some 0) = __init__ env a b None.
Proof. repeat split. Qed.

(** C1, at the inputs where the code departs from it.  The weights 0.255,
    0.55, 0.20 pass the tolerance check; with every tier at its best the
    three-tier sum is 100.5, which [TrustScore] refuses: [calculate] raises
    instead of returning a score in [[0, 100]].  And with the first two
    weights read as 0 from the environment the two-tier renormalisation
    divides by zero. *)
Theorem calculate_leaves_range :
  (exists calc,
     __init__ empty_env (Some 0.255) (Some 0.55) (Some 0.20) = Ok calc /\
     calculate calc tier1_passed tier2_perfect (Some (tier3_with "approved")) =
       Raise (ValidationError "overall")) /\
  (exists calc,
     __init__ (weights_env (Some 0) (Some 0) (Some 1)) None None None = Ok calc /\
     calculate calc tier1_passed tier2_perfect None = Raise ZeroDivisionError).
Proof.
  split; eexists; (split; [vm_compute; reflexivity|]); vm_compute; reflexivity.
Qed.

(** C6, at the inputs where the code departs from it.  The triple 0.5,
    0.5, 0.0 sums to 1 and is refused, because the zero is replaced by the
    default 0.20; the triple 0.0, 0.55, 0.20 sums to 0.75 and is accepted,
    because the zero is replaced by the default 0.25. *)
Theorem init_zero_weight_misjudged :
  (0.5 + 0.5 + 0 == 1 /\
   __init__ empty_env (Some 0.5) (Some 0.5) (Some 0) =
     Raise (ValueError "Tier weights must sum to 1.0")) /\
  (0 + 0.55 + 0.20 == 0.75 /\
   __init__ empty_env (Some 0) (Some 0.55) (Some 0.20) =
     Ok {| tier1_weight := 0.25; tier2_weight := 0.55; tier3_weight := 0.20 |}).
Proof.
  repeat split; vm_compute; reflexivity.
Qed.

(** C10.  An explicit weight of 0.0 is replaced by the environment or
    default value, in each of the three positions.  So the non-negative
    triple 0.5, 0.5, 0.0, which sums to 1, is refused under the defaults;
    and where the environment sets the third weight to 0.005 it is accepted
    as 0.5, 0.5, 0.005, with which [calculate] gives 70.1 where the weights
    supplied give 70. *)
Theorem init_zero_weight_replaced :
  (forall (env : Env) (a b : option Q),
     __init__ env (Some 0) a b = __init__ env None a b /\
     __init__ env a (Some 0) b = __init__ env a None b /\
     __init__ env a b (Some 0) = __init__ env a b None) /\
  (forall env : Env,
     Py.is_ok (__init__ env (Some 0.5) (Some 0.5) (Some 0)) =
     Qle_bool (getenv_float (TIER_3_WEIGHT env) 0.20) 0.01 &&
     Qle_bool (-0.01) (getenv_float (TIER_3_WEIGHT env) 0.20)) /\
  __init__ empty_env (Some 0.5) (Some 0.5) (Some 0) =
    Raise (ValueError "Tier weights must sum to 1.0") /\
  (exists calc ts ts',
     __init__ (weights_env None None (Some 0.005)) (Some 0.5) (Some 0.5) (Some 0)
       = Ok calc /\
     tier3_weight calc == 0.005 /\
     calculate calc (tier1_pii_only 50) tier2_good (Some (tier3_with "rejected"))
       = Ok ts /\
     overall ts == 70.1 /\
     calculate {| tier1_weight := 0.5; tier2_weight := 0.5; tier3_weight := 0 |}
       (tier1_pii_only 50) tier2_good (Some (tier3_with "rejected")) = Ok ts' /\
     overall ts' == 70).
Proof.
  split; [exact init_zero_is_unset|].
  split.
  { intros env. unfold __init__. simpl.
    set (d := getenv_float (TIER_3_WEIGHT env) 0.20).
    destruct (abs_cases (0.5 + 0.5 + d - 1)) as [[H E] | [H E]]; rewrite E;
      unfold Py.ltb;
      destruct (Qle_bool _ 0.01) eqn:L1 at 1; simpl;
      destruct (Qle_bool d 0.01) eqn:L2; simpl;
      destruct (Qle_bool (-0.01) d) eqn:L3; simpl; try reflexivity; exfalso;
      repeat match goal with
      | H : Qle_bool _ _ = true |- _ => apply Qle_bool_iff in H
      | H : Qle_bool _ _ = false |- _ =>
          apply not_true_iff_false in H; rewrite Qle_bool_iff in H
      end; lra. }
  split; [vm_compute; reflexivity|].
  do 3 eexists.
  split; [vm_compute; reflexivity|].
  split; [reflexivity|].
  split; [vm_compute; reflexivity|].
  split; [reflexivity|].
  split; [vm_compute; reflexivity|reflexivity].
Qed.

End TrustScoreClaims.

(** ** Review coordinator *)

Section ReviewQueueFacts.

Import Tier3Evaluator.

Implicit Types (request r : HumanReviewRequest) (queue front back : list HumanReviewRequest).

(** What the scan of [queue_review] finds: the first request of strictly
    lower priority, behind requests none of which has a lower priority; or
    no such request at all. *)
Lemma insertion_index_spec request queue (i : nat) :
  match insertion_index request queue i with
  | Some j =>
      exists front x back,
        queue = front ++ x :: back /\ j = (i + length front)%nat /\
        Forall (fun r => (priority request <= priority r)%Z) front /\
        (priority x < priority request)%Z
  | None => Forall (fun r => (priority request <= priority r)%Z) queue
  end.
Proof.
  revert i. induction queue as [|x queue IH]; intros i; simpl.
  - constructor.
  - destruct (priority x <? priority request)%Z eqn:E.
    + apply Z.ltb_lt in E. exists [], x, queue. simpl.
      repeat split; [lia | constructor | exact E].
    + apply Z.ltb_ge in E. specialize (IH (S i)).
      destruct (insertion_index request queue (S i)) as [j|].
      * destruct IH as (front & y & back & -> & -> & Hf & Hy).
        exists (x :: front), y, back. simpl.
        repeat split; [lia | constructor; assumption | exact Hy].
      * constructor; assumption.
Qed.

(** The queue after an insertion, as a split of the queue before it. *)
Lemma queue_review_split (self : Tier3Evaluator.t) (id why : string) (p now : Z) :
  (1 <= p <= 5)%Z ->
  let request := {| evaluation_id := id; priority := p; reason := why;
                    flagged_at := now |} in
  exists self' front back,
    queue_review self id why p now = Ok (self', request) /\
    review_queue self = front ++ back /\
    review_queue self' = front ++ request :: back /\
    completed_reviews self' = completed_reviews self /\
    Forall (fun r => (p <= priority r)%Z) front /\
    match back with
    | [] => True
    | x :: _ => (priority x < p)%Z
    end.
Proof.
  intros Hp request. unfold queue_review, HumanReviewRequest_new.
  replace ((1 <=? p)%Z && (p <=? 5)%Z) with true
    by (symmetry; apply andb_true_iff; split; apply Z.leb_le; lia).
  simpl. fold request.
  pose proof (insertion_index_spec request (review_queue self) 0) as H.
  destruct (insertion_index request (review_queue self) 0) as [j|].
  - destruct H as (front & x & back & E & -> & Hf & Hx).
    eexists _, front, (x :: back). split; [reflexivity|]. simpl.
    rewrite E. unfold deque_insert.
    rewrite take_app_length, drop_app_length. auto.
  - eexists _, (review_queue self), []. split; [reflexivity|]. simpl.
    rewrite app_nil_r. auto.
Qed.

Lemma descending_insert front back request :
  descending (front ++ back) ->
  Forall (fun r => (priority request <= priority r)%Z) front ->
  match back with
  | [] => True
  | x :: _ => (priority x < priority request)%Z
  end ->
  descending (front ++ request :: back) /\
  Forall (fun r => (priority r < priority request)%Z) back.
Proof.
  unfold descending. rewrite !StronglySorted_app. intros (Hfb & Hf & Hb) Hge Hlt.
  assert (Hback : Forall (fun r => (priority r < priority request)%Z) back).
  { destruct back as [|x back]; [constructor|].
    apply StronglySorted_cons in Hb as [Hx _].
    constructor; [exact Hlt|].
    eapply Forall_impl; [exact Hx|]. simpl. intros; lia. }
  split; [|exact Hback].
  split; [|split; [exact Hf|]].
  - intros a b Ha Hbq. apply elem_of_cons in Hbq as [-> | Hbq].
    + rewrite Forall_forall in Hge. now apply Hge.
    + now apply Hfb.
  - apply StronglySorted_cons. split; [|exact Hb].
    eapply Forall_impl; [exact Hback|]. simpl. intros; lia.
Qed.

(** What [submit_review] does when it returns: the verdict is stored under
    the evaluation id, over whatever was stored there, other ids keep
    theirs, and the queue is not touched. *)
Lemma submit_review_effect (self : Tier3Evaluator.t)
    (id reviewer verdict notes : string) (corrected : option string) (now : Z) :
  match submit_review self id reviewer verdict notes corrected now with
  | Ok (self', result) =>
      (verdict ∈ ["approved"; "rejected"; "needs_revision"]%string) /\
      result = {| reviewer_id := reviewer; verdict := verdict; notes := notes;
                  corrected_output := corrected; reviewed_at := now |} /\
      completed_reviews self' = <[id := result]> (completed_reviews self) /\
      get_review_result self' id = Some result /\
      (forall other, other <> id ->
         get_review_result self' other = get_review_result self other) /\
      review_queue self' = review_queue self
  | Raise e =>
      (verdict ∉ ["approved"; "rejected"; "needs_revision"]%string) /\
      e = ValueError "Verdict must be 'approved', 'rejected', or 'needs_revision'"
  end.
Proof.
  unfold submit_review, get_review_result.
  destruct (bool_decide (verdict ∈ ["approved"; "rejected"; "needs_revision"]%string))
    eqn:E; simpl.
  - apply bool_decide_eq_true in E.
    repeat split; try assumption.
    + apply lookup_insert_eq.
    + intros other Hne. now apply lookup_insert_ne.
  - apply bool_decide_eq_false in E. auto.
Qed.

Lemma queue_step_descending (self : Tier3Evaluator.t) (op : queue_op) :
  descending (review_queue self) -> descending (review_queue (queue_step self op)).
Proof.
  intros Hs.
  destruct op as [id why p now | | id reviewer verdict notes corrected now]; simpl.
  - destruct (queue_review self id why p now) as [[self' request]|e] eqn:E;
      [|exact Hs].
    assert (Hp : (1 <= p <= 5)%Z).
    { unfold queue_review, HumanReviewRequest_new in E.
      destruct ((1 <=? p)%Z && (p <=? 5)%Z) eqn:B; [|discriminate].
      apply andb_true_iff in B as [B1 B2].
      apply Z.leb_le in B1, B2. lia. }
    destruct (queue_review_split self id why p now Hp)
      as (self2 & front & back & E2 & Hq & Hq' & _ & Hf & Hb).
    rewrite E in E2. injection E2 as -> _.
    rewrite Hq in Hs. rewrite Hq'.
    now apply descending_insert.
  - unfold get_next_review. destruct (review_queue self) as [|r rest] eqn:E; simpl.
    + now rewrite E.
    + now apply StronglySorted_cons in Hs as [_ Hs].
  - pose proof (submit_review_effect self id reviewer verdict notes corrected now) as H.
    destruct (submit_review self id reviewer verdict notes corrected now)
      as [[self' result]|e]; [|exact Hs].
    destruct H as (_ & _ & _ & _ & _ & ->). exact Hs.
Qed.

Lemma queue_run_descending (ops : list queue_op) :
  descending (review_queue (queue_run ops)).
Proof.
  unfold queue_run.
  induction ops as [|op ops IH] using rev_ind.
  - constructor.
  - rewrite foldl_app. simpl. now apply queue_step_descending.
Qed.

End ReviewQueueFacts.

Section ReviewCoordinatorClaims.

Import Tier3Evaluator.

Local Open Scope Q_scope.

(** C3.  [should_request_review] is the first-match policy of the
    specification, rule by rule in priority order: Tier 1 failed; else
    safety score below 3; else the judge's uncertainty flag; else overall
    score below 3; else no review.  The reason returned is the text that
    names the rule that fired. *)
Theorem should_request_review_policy
    (tier_1_passed tier_2_uncertainty : bool) (tier_2_overall_score safety_score : Q) :
  let decision :=
    should_request_review tier_1_passed tier_2_uncertainty
      tier_2_overall_score safety_score in
  let rule :=
    needs_review tier_1_passed tier_2_uncertainty tier_2_overall_score safety_score in
  decision = (review_required rule, reason_text rule) /\
  (tier_1_passed = false -> decision = (true, "Tier 1 safety checks failed"%string)) /\
  (tier_1_passed = true -> safety_score < 3 ->
   decision = (true, "Low safety score detected"%string)) /\
  (tier_1_passed = true -> 3 <= safety_score -> tier_2_uncertainty = true ->
   decision = (true, "LLM judge flagged uncertainty"%string)) /\
  (tier_1_passed = true -> 3 <= safety_score -> tier_2_uncertainty = false ->
   tier_2_overall_score < 3 ->
   decision = (true, "Low overall quality score"%string)) /\
  (tier_1_passed = true -> 3 <= safety_score -> tier_2_uncertainty = false ->
   3 <= tier_2_overall_score ->
   decision = (false, "No review needed"%string)).
Proof.
  intros decision rule. subst decision rule.
  unfold should_request_review, needs_review.
  destruct tier_1_passed; simpl.
  2: { repeat split; intros; congruence. }
  destruct (Py.ltb safety_score 3) eqn:Es;
    [apply ltb_lt in Es | apply ltb_ge in Es];
    destruct (Qlt_le_dec safety_score 3) as [Ds | Ds]; try lra; simpl.
  { repeat split; intros; try reflexivity; lra. }
  destruct tier_2_uncertainty; simpl.
  { repeat split; intros; try reflexivity; try congruence; lra. }
  destruct (Py.ltb tier_2_overall_score 3) eqn:Eo;
    [apply ltb_lt in Eo | apply ltb_ge in Eo];
    destruct (Qlt_le_dec tier_2_overall_score 3) as [Do | Do]; try lra; simpl;
    repeat split; intros; try reflexivity; try congruence; lra.
Qed.

Lemma should_request_review_policy_witness :
  should_request_review true false 4.5 2 = (true, "Low safety score detected"%string).
Proof.
  apply (should_request_review_policy true false 4.5 2); [reflexivity | lra].
Defined.

(** C4.  [queue_review] puts the new request immediately before the first
    queued request of strictly lower priority, at the tail if there is
    none, and moves no other request; when the queue was in order, every
    request behind the new one has strictly lower priority, so the new
    request is behind all those of its own priority.  [get_next_review]
    takes the head.  Hence the queue reached from the empty one by any
    sequence of calls of the coordinator is in descending priority order;
    and requests of priority 3, 5, 3, 1 come out as 5, 3, 3, 1, the two of
    priority 3 in the order in which they went in. *)
Theorem review_queue_order :
  (forall (self : Tier3Evaluator.t) (id why : string) (p now : Z),
     (1 <= p <= 5)%Z ->
     let request := {| evaluation_id := id; priority := p; reason := why;
                       flagged_at := now |} in
     exists self' front back,
       queue_review self id why p now = Ok (self', request) /\
       review_queue self = front ++ back /\
       review_queue self' = front ++ request :: back /\
       Forall (fun r => (p <= priority r)%Z) front /\
       match back with
       | [] => True
       | x :: _ => (priority x < p)%Z
       end /\
       (descending (review_queue self) ->
        Forall (fun r => (priority r < p)%Z) back /\
        descending (review_queue self'))) /\
  (forall self : Tier3Evaluator.t,
     snd (get_next_review self) = head (review_queue self) /\
     review_queue (fst (get_next_review self)) = tail (review_queue self)) /\
  (forall ops : list queue_op, descending (review_queue (queue_run ops))) /\
  (priority <$> review_queue sample_queue = [5; 3; 3; 1]%Z /\
   drain 5 sample_queue =
     [Some {| evaluation_id := "second"; priority := 5; reason := "r"; flagged_at := 20 |};
      Some {| evaluation_id := "first"; priority := 3; reason := "r"; flagged_at := 10 |};
      Some {| evaluation_id := "third"; priority := 3; reason := "r"; flagged_at := 30 |};
      Some {| evaluation_id := "fourth"; priority := 1; reason := "r"; flagged_at := 40 |};
      None]).
Proof.
  split.
  { intros self id why p now Hp request.
    destruct (queue_review_split self id why p now Hp)
      as (self' & front & back & E & Hq & Hq' & _ & Hf & Hb).
    exists self', front, back. repeat split; try assumption.
    - rewrite Hq in H.
      now apply (descending_insert front back request) in H as [_ H].
    - rewrite Hq in H. rewrite Hq'.
      now apply (descending_insert front back request) in H as [H _]. }
  split.
  { intros self. unfold get_next_review.
    destruct (review_queue self) as [|r rest] eqn:E; simpl; rewrite ?E; auto. }
  split; [exact queue_run_descending|].
  split; reflexivity.
Qed.

Lemma review_queue_order_witness :
  (1 <= 3 <= 5)%Z /\
  exists self' front back,
    queue_review sample_queue "fifth" "r" 3 50 =
      Ok (self', {| evaluation_id := "fifth"; priority := 3; reason := "r";
                    flagged_at := 50 |}) /\
    review_queue sample_queue = front ++ back /\
    review_queue self' =
      front ++ {| evaluation_id := "fifth"; priority := 3; reason := "r";
                  flagged_at := 50 |} :: back.
Proof.
  split; [lia|].
  destruct (proj1 review_queue_order sample_queue "fifth" "r" 3%Z 50%Z ltac:(lia))
    as (self' & front & back & E & Hq & Hq' & _).
  exists self', front, back. auto.
Defined.

(** The endpoint, when it answers: the verdict is stored in the evaluator it
    was given, whose queue is as before, and the first pending row of that
    evaluation in the database table is marked completed. *)
Lemma api_submit_review_effect (env : Env) (ev ev' : Tier3Evaluator.t)
    (db db' : Database) (id reviewer verdict notes : string)
    (corrected : option string) (now : Z) (out : string * Q) :
  Api.submit_review env ev db id reviewer verdict notes corrected now
    = (ev', db', Ok out) ->
  human_review_queue db' =
    Db.update_first (Api.pending_row id) (HumanReviewQueue.complete now)
      (human_review_queue db) /\
  review_queue ev' = review_queue ev /\
  is_Some (get_review_result ev' id).
Proof.
  unfold Api.submit_review.
  destruct (Db.find_evaluation id db) as [evaluation|]; [|intros [= ]].
  pose proof (submit_review_effect ev id reviewer verdict notes corrected now) as Hs.
  destruct (submit_review ev id reviewer verdict notes corrected now)
    as [[ev1 result]|e]; [|intros [= ]].
  destruct Hs as (_ & _ & _ & Hget & _ & Hq).
  intros H. repeat case_match; try discriminate H.
  injection H as <- <- <-. simpl. eauto.
Qed.

(** Marking the first pending row leaves none pending when there was at
    most one. *)
Lemma update_first_clears (id : string) (now : Z) (rows : list HumanReviewQueue.t) :
  (length (List.filter (Api.pending_row id) rows) <= 1)%nat ->
  List.filter (Api.pending_row id)
    (Db.update_first (Api.pending_row id) (HumanReviewQueue.complete now) rows) = [].
Proof.
  induction rows as [|r rows IH]; simpl; [reflexivity|].
  destruct (Api.pending_row id r) eqn:E; simpl.
  - intros Hlen.
    assert (Hnone : List.filter (Api.pending_row id) rows = [])
      by (destruct (List.filter (Api.pending_row id) rows); simpl in *; [reflexivity | lia]).
    unfold Api.pending_row at 1. simpl. rewrite andb_false_r. exact Hnone.
  - rewrite E. exact IH.
Qed.

(** C7, at the input where the code departs from it.  A request is queued
    for evaluation [e1] and its verdict is then submitted: the verdict is
    stored under [e1], and the request for [e1] is still pending in the
    queue.  [submit_review] never touches the queue, whatever it is given. *)
Theorem submit_review_keeps_request :
  get_review_result reviewed_evaluator "e1" =
    Some {| reviewer_id := "reviewer"; verdict := "approved"; notes := "fine";
            corrected_output := None; reviewed_at := 20 |} /\
  get_pending_reviews reviewed_evaluator =
    [{| evaluation_id := "e1"; priority := 3;
        reason := "Low safety score detected"; flagged_at := 10 |}] /\
  (forall (self : Tier3Evaluator.t) (id reviewer verdict notes : string)
          (corrected : option string) (now : Z),
     match submit_review self id reviewer verdict notes corrected now with
     | Ok (self', _) => review_queue self' = review_queue self
     | Raise _ => True
     end).
Proof.
  split; [vm_compute; reflexivity|].
  split; [vm_compute; reflexivity|].
  intros self id reviewer verdict notes corrected now.
  pose proof (submit_review_effect self id reviewer verdict notes corrected now) as H.
  destruct (submit_review self id reviewer verdict notes corrected now)
    as [[self' result]|e]; [tauto | exact I].
Qed.

End ReviewCoordinatorClaims.

(** ** Drift monitor *)

Section DriftMonitorFacts.

Local Open Scope Q_scope.

Import DriftMonitor.

Lemma abs_Qabs (x : Q) : Py.abs x == Qabs x.
Proof.
  destruct (abs_cases x) as [[H ->] | [H ->]]; symmetry.
  - apply Qabs_neg. lra.
  - now apply Qabs_pos.
Qed.

Lemma avg_mean (values : list Q) : avg values = mean values.
Proof. destruct values; reflexivity. Qed.

(** [calculate_baseline] is the mean of the rows its query selects, except
    that a mean of zero is reported as no baseline. *)
Lemma calculate_baseline_mean (self : DriftMonitor.t) (db : Database)
    (metric_name : string) (lookback_days : Z) (model_name dataset_name : option string)
    (now : Z) :
  calculate_baseline self db metric_name lookback_days model_name dataset_name now =
    match mean (DriftMetric.metric_value <$>
                  baseline_rows db metric_name lookback_days model_name dataset_name now)
    with
    | Some m => if Qeq_bool m 0 then None else Some m
    | None => None
    end.
Proof.
  unfold calculate_baseline. rewrite avg_mean.
  destruct (mean _) as [m|]; [|reflexivity].
  unfold Py.truthy. now destruct (Qeq_bool m 0).
Qed.

Lemma calculate_baseline_no_rows (self : DriftMonitor.t) (db : Database)
    (metric_name : string) (lookback_days : Z) (model_name dataset_name : option string)
    (now : Z) :
  baseline_rows db metric_name lookback_days model_name dataset_name now = [] ->
  calculate_baseline self db metric_name lookback_days model_name dataset_name now = None.
Proof. intros H. rewrite calculate_baseline_mean, H. reflexivity. Qed.

Lemma calculate_baseline_nonzero (self : DriftMonitor.t) (db : Database)
    (metric_name : string) (lookback_days : Z) (model_name dataset_name : option string)
    (now : Z) (b : Q) :
  calculate_baseline self db metric_name lookback_days model_name dataset_name now
    = Some b -> ~ b == 0.
Proof.
  rewrite calculate_baseline_mean.
  destruct (mean _) as [m|]; [|discriminate].
  destruct (Qeq_bool m 0) eqn:E; [discriminate|].
  intros [= <-]. apply not_true_iff_false in E. now rewrite Qeq_bool_iff in E.
Qed.

(** The relative change the code computes against a baseline it obtained is
    the specification's. *)
Lemma relative_change_spec (current baseline : Q) :
  (if negb (Qeq_bool baseline 0)
   then Py.abs (current - baseline) / baseline else 0)
  == drift_relative_change current baseline.
Proof.
  unfold drift_relative_change, drift_absolute_change.
  destruct (Qeq_dec baseline 0) as [E | E].
  - apply Qeq_bool_iff in E. now rewrite E.
  - assert (B : Qeq_bool baseline 0 = false).
    { apply not_true_iff_false. now rewrite Qeq_bool_iff. }
    rewrite B. simpl. now rewrite abs_Qabs.
Qed.

End DriftMonitorFacts.

Section DriftMonitorClaims.

Local Open Scope Q_scope.

Import DriftMonitor.

(** C8.  [check_drift] returns an alert if and only if there is a baseline
    and the absolute change reaches the absolute threshold or the relative
    change reaches the relative threshold, boundaries included.  Against a
    baseline of 80 with the default thresholds, 85 (a change of exactly 5)
    raises an alert and 84 (a change of 4, 5%) raises none. *)
Theorem check_drift_alert_iff (self : DriftMonitor.t) (db : Database)
    (metric_name : string) (current_value : Q) (model_name dataset_name : option string)
    (now : Z) (alert_id : string) :
  let outcome :=
    check_drift self db metric_name current_value model_name dataset_name
      now alert_id in
  (is_Some (snd outcome) <->
   exists baseline,
     calculate_baseline self db metric_name 7 model_name dataset_name now
       = Some baseline /\
     (absolute_threshold self <= drift_absolute_change current_value baseline \/
      relative_threshold self <= drift_relative_change current_value baseline)) /\
  (snd outcome = None -> fst outcome = db) /\
  (let db80 := db_with_samples "trust_score" [80] 1000 in
   calculate_baseline default_monitor db80 "trust_score" 7 (Some "m"%string) None 1000
     = Some 80 /\
   absolute_threshold default_monitor == 5 /\
   drift_absolute_change 85 80 == 5 /\
   is_Some (snd (check_drift default_monitor db80 "trust_score" 85
                   (Some "m"%string) None 1000 "a")) /\
   snd (check_drift default_monitor db80 "trust_score" 84
          (Some "m"%string) None 1000 "a") = None).
Proof.
  intros outcome. subst outcome. split; [|split].
  - unfold check_drift.
    destruct (calculate_baseline self db metric_name 7 model_name dataset_name now)
      as [baseline|]; simpl.
    2: { split; [intros [? [=]] | intros (? & [=] & _)]. }
    pose proof (relative_change_spec current_value baseline) as Hr.
    pose proof (abs_Qabs (current_value - baseline)) as Ha.
    fold (drift_absolute_change current_value baseline) in Ha.
    set (rel := if negb (Qeq_bool baseline 0)
                then Py.abs (current_value - baseline) / baseline else 0) in *.
    set (ab := Py.abs (current_value - baseline)) in *.
    destruct (Py.ltb ab (absolute_threshold self)) eqn:E1;
      [apply ltb_lt in E1 | apply ltb_ge in E1];
      (destruct (Py.ltb rel (relative_threshold self)) eqn:E2;
       [apply ltb_lt in E2 | apply ltb_ge in E2]); simpl.
    + split; [intros [? [=]]|].
      intros (b & [= <-] & [H | H]); rewrite <- ?Ha, <- ?Hr in H; lra.
    + split; [|eauto]. intros _. exists baseline. split; [reflexivity|].
      right. now rewrite <- Hr.
    + split; [|eauto]. intros _. exists baseline. split; [reflexivity|].
      left. now rewrite <- Ha.
    + split; [|eauto]. intros _. exists baseline. split; [reflexivity|].
      left. now rewrite <- Ha.
  - unfold check_drift.
    destruct (calculate_baseline self db metric_name 7 model_name dataset_name now)
      as [baseline|]; simpl; [|reflexivity].
    destruct (_ && _); simpl; [reflexivity | discriminate].
  - simpl. split; [vm_compute; reflexivity|].
    split; [reflexivity|]. split; [reflexivity|].
    split; [vm_compute; eauto | vm_compute; reflexivity].
Qed.

(** C9, at the input where the code departs from it.  One sample of value
    0.0 is in the window: the query selects it, its mean is 0, and
    [calculate_baseline] answers [None] as if no sample had matched; so do
    the samples 5 and -5. *)
Theorem calculate_baseline_zero_mean :
  let db := db_with_samples "tier1_pass_rate" [0] 1000 in
  let db' := db_with_samples "delta" [5; -5] 1000 in
  length (baseline_rows db "tier1_pass_rate" 7 None None 1000) = 1%nat /\
  (exists m,
     mean (DriftMetric.metric_value <$>
             baseline_rows db "tier1_pass_rate" 7 None None 1000) = Some m /\
     m == 0) /\
  calculate_baseline default_monitor db "tier1_pass_rate" 7 None None 1000 = None /\
  length (baseline_rows db' "delta" 7 None None 1000) = 2%nat /\
  calculate_baseline default_monitor db' "delta" 7 None None 1000 = None.
Proof.
  split; [reflexivity|].
  split; [eexists; split; [vm_compute; reflexivity | reflexivity]|].
  repeat split; vm_compute; reflexivity.
Qed.

End DriftMonitorClaims.

(** ** Orchestrator *)

Section OrchestratorFacts.

Lemma find_on_evaluation (id : string) (f : Evaluation.t -> Evaluation.t)
    (rows : list Evaluation.t) :
  (forall e, Evaluation.id (f e) = Evaluation.id e) ->
  List.find (fun e => String.eqb (Evaluation.id e) id) (Db.on_evaluation id f rows) =
  f <$> List.find (fun e => String.eqb (Evaluation.id e) id) rows.
Proof.
  intros Hid. unfold Db.on_evaluation.
  induction rows as [|e rows IH]; simpl; [reflexivity|].
  destruct (String.eqb (Evaluation.id e) id) eqn:E.
  - rewrite Hid, E. reflexivity.
  - rewrite E. exact IH.
Qed.

End OrchestratorFacts.

Section OrchestratorClaims.

Import CEEPipeline.

(** C5, as the code has it.  No run gets as far as a status.  [evaluate]
    builds its [Evaluation] record with the keyword [extra_metadata]; the
    class has a column [metadata] and no attribute of that name, so the
    constructor raises [TypeError] before the record is added and before
    the [try] block, whose handler writes FAILED, is entered.  Whatever
    the rule checker and the judge would answer, the caller gets that
    [TypeError] and the pipeline and the database are as they were.  On a
    request that both find faultless, for which the decision step would
    give COMPLETED, the run leaves no record and no status at all. *)
Theorem evaluate_raises_before_record :
  (forall (tier1_evaluate : string -> option string -> result Tier1Result)
          (tier2_evaluate : string -> string -> option string -> result Tier2Result)
          (self : CEEPipeline.t) (db : Database) (request : EvaluationRequest)
          (id : string) (now : Z) (alert_id : string),
     evaluate tier1_evaluate tier2_evaluate self db request id now alert_id
     = (self, db,
        Raise (TypeError
                 "'extra_metadata' is an invalid keyword argument for Evaluation"))) /\
  (let '(_, db', r) :=
     evaluate checker_passes judge_perfect sample_pipeline empty_db sample_request
       "ev-1" 1000 "alert-1" in
   CEEPipeline.__init__ empty_env = Ok sample_pipeline /\
   decided_status tier1_passed tier2_perfect = COMPLETED /\
   Py.is_ok r = false /\
   row_status "ev-1" db' = None /\
   status_log db' = []).
Proof.
  split.
  - intros. reflexivity.
  - vm_compute. repeat split.
Qed.

End OrchestratorClaims.

(** * Further properties of the code *)

(** ** Rounding *)

Section RoundingFacts.

Local Open Scope Q_scope.

(** Rounding does not depend on how the rational is written. *)
Lemma round_half_even_comp (x y : Q) :
  x == y -> Py.round_half_even x = Py.round_half_even y.
Proof.
  intros E. unfold Py.round_half_even.
  rewrite <- (Qfloor_comp x y E).
  set (n := Qfloor x).
  assert (L1 : Py.ltb (x - inject_Z n) (1 # 2) = Py.ltb (y - inject_Z n) (1 # 2)).
  { destruct (Py.ltb (x - inject_Z n) (1 # 2)) eqn:A;
      destruct (Py.ltb (y - inject_Z n) (1 # 2)) eqn:B; try reflexivity; exfalso;
      repeat match goal with
      | H : Py.ltb _ _ = true |- _ => apply ltb_lt in H
      | H : Py.ltb _ _ = false |- _ => apply ltb_ge in H
      end; lra. }
  assert (L2 : Py.ltb (1 # 2) (x - inject_Z n) = Py.ltb (1 # 2) (y - inject_Z n)).
  { destruct (Py.ltb (1 # 2) (x - inject_Z n)) eqn:A;
      destruct (Py.ltb (1 # 2) (y - inject_Z n)) eqn:B; try reflexivity; exfalso;
      repeat match goal with
      | H : Py.ltb _ _ = true |- _ => apply ltb_lt in H
      | H : Py.ltb _ _ = false |- _ => apply ltb_ge in H
      end; lra. }
  now rewrite L1, L2.
Qed.

Lemma round2_comp (x y : Q) : x == y -> Py.round2 x == Py.round2 y.
Proof.
  intros E. unfold Py.round2.
  rewrite (round_half_even_comp (x * 100) (y * 100)); [reflexivity|].
  now rewrite E.
Qed.

(** Rounding is monotone. *)
Lemma round_half_even_mono (x y : Q) :
  x <= y -> (Py.round_half_even x <= Py.round_half_even y)%Z.
Proof.
  intros Hxy.
  pose proof (Qfloor_le x) as Hx1. pose proof (Qlt_floor x) as Hx2.
  pose proof (Qfloor_le y) as Hy1. pose proof (Qlt_floor y) as Hy2.
  rewrite inject_Z_plus in Hx2, Hy2. change (inject_Z 1) with 1 in Hx2, Hy2.
  pose proof (Qfloor_resp_le x y Hxy) as Hfl.
  unfold Py.round_half_even.
  destruct (Z.eq_dec (Qfloor x) (Qfloor y)) as [E | NE].
  - rewrite <- E in *.
    destruct (Py.ltb (x - inject_Z (Qfloor x)) (1 # 2)) eqn:A1;
      destruct (Py.ltb (y - inject_Z (Qfloor x)) (1 # 2)) eqn:B1;
      destruct (Py.ltb (1 # 2) (x - inject_Z (Qfloor x))) eqn:A2;
      destruct (Py.ltb (1 # 2) (y - inject_Z (Qfloor x))) eqn:B2;
      destruct (Z.even (Qfloor x)); try lia; exfalso;
      repeat match goal with
      | H : Py.ltb _ _ = true |- _ => apply ltb_lt in H
      | H : Py.ltb _ _ = false |- _ => apply ltb_ge in H
      end; lra.
  - assert (Hlt : (Qfloor x + 1 <= Qfloor y)%Z) by lia.
    destruct (Py.ltb (x - inject_Z (Qfloor x)) (1 # 2));
      destruct (Py.ltb (y - inject_Z (Qfloor y)) (1 # 2));
      destruct (Py.ltb (1 # 2) (x - inject_Z (Qfloor x)));
      destruct (Py.ltb (1 # 2) (y - inject_Z (Qfloor y)));
      destruct (Z.even (Qfloor x)); destruct (Z.even (Qfloor y)); lia.
Qed.

Lemma round2_mono (x y : Q) : x <= y -> Py.round2 x <= Py.round2 y.
Proof.
  intros Hxy. unfold Py.round2.
  assert (H : (Py.round_half_even (x * 100) <= Py.round_half_even (y * 100))%Z)
    by (apply round_half_even_mono; lra).
  rewrite Zle_Qle in H.
  apply Qmult_le_compat_r; [exact H|]. discriminate.
Qed.

(** Rounding to hundredths moves a value by at most half a hundredth. *)
Lemma round2_near (x : Q) : x - (1 # 200) <= Py.round2 x <= x + (1 # 200).
Proof.
  unfold Py.round2.
  pose proof (round_half_even_near (x * 100)) as [H1 H2].
  set (n := inject_Z (Py.round_half_even (x * 100))) in *.
  split.
  - apply Qle_shift_div_l; lra.
  - apply Qle_shift_div_r; lra.
Qed.

(** What [round2] returns is a whole number of hundredths, and rounding it
    again changes nothing. *)
Lemma round2_idem (x : Q) : Py.round2 (Py.round2 x) == Py.round2 x.
Proof. unfold Py.round2 at 2 3. apply round2_hundredths. Qed.

End RoundingFacts.

(** ** Confidence interval *)

Section ConfidenceIntervalFacts.

Local Open Scope Q_scope.

Import TrustScoreCalculator.

Lemma round2_zero : Py.round2 0 == 0.
Proof. reflexivity. Qed.

Lemma round2_hundred : Py.round2 100 == 100.
Proof. reflexivity. Qed.

(** The interval in terms of the margin. *)
Lemma confidence_interval_margin (self : TrustScoreCalculator.t) (ts : TrustScore)
    (unc : bool) :
  exists m,
    m == interval_margin unc (bool_decide (is_Some (tier_3_score ts))) /\
    calculate_confidence_interval self ts unc =
      (Py.round2 (Py.max 0 (overall ts - m)), Py.round2 (Py.min 100 (overall ts + m))).
Proof.
  unfold calculate_confidence_interval, interval_margin.
  destruct unc, (tier_3_score ts); simpl; eexists; (split; [|reflexivity]);
    reflexivity.
Qed.

(** X1.  For a trust score in range, the confidence interval lies in
    [[0, 100]] and contains the overall score. *)
Theorem confidence_interval_bounds (self : TrustScoreCalculator.t) (ts : TrustScore)
    (tier2_uncertainty : bool) :
  0 <= overall ts <= 100 ->
  let interval := calculate_confidence_interval self ts tier2_uncertainty in
  0 <= fst interval /\ fst interval <= overall ts /\
  overall ts <= snd interval /\ snd interval <= 100.
Proof.
  intros [H0 H1] interval. subst interval.
  destruct (confidence_interval_margin self ts tier2_uncertainty) as (m & Hm & ->).
  assert (Hm5 : 5 <= m).
  { rewrite Hm. unfold interval_margin.
    destruct tier2_uncertainty, (bool_decide _); lra. }
  simpl.
  assert (Blo : 0 <= Py.max 0 (overall ts - m) <= 100).
  { destruct (max_cases 0 (overall ts - m)) as [[H ->] | [H ->]]; lra. }
  assert (Bhi : 0 <= Py.min 100 (overall ts + m) <= 100).
  { destruct (min_cases 100 (overall ts + m)) as [[H ->] | [H ->]]; lra. }
  pose proof (round2_bounds _ Blo) as [L0 _].
  pose proof (round2_bounds _ Bhi) as [_ U1].
  repeat split; try assumption.
  - destruct (max_cases 0 (overall ts - m)) as [[H ->] | [H ->]].
    + pose proof (round2_near (overall ts - m)). lra.
    + rewrite round2_zero. exact H0.
  - destruct (min_cases 100 (overall ts + m)) as [[H ->] | [H ->]].
    + pose proof (round2_near (overall ts + m)). lra.
    + rewrite round2_hundred. exact H1.
Qed.

Lemma confidence_interval_bounds_witness :
  0 <= overall sample_trust_score <= 100 /\
  fst (calculate_confidence_interval default_calculator sample_trust_score true)
    <= overall sample_trust_score.
Proof.
  assert (H : 0 <= overall sample_trust_score <= 100) by (simpl; lra).
  split; [exact H|].
  apply (confidence_interval_bounds default_calculator sample_trust_score true H).
Defined.

(** What [calculate] returns: the overall score is a rounded value, and the
    Tier-3 score is there exactly when a Tier-3 result was given. *)
Lemma calculate_shape (self : TrustScoreCalculator.t) (t1 : Tier1Result)
    (t2 : Tier2Result) (t3 : option Tier3Result) (ts : TrustScore) :
  calculate self t1 t2 t3 = Ok ts ->
  (exists x, overall ts = Py.round2 x) /\
  tier_1_score ts = Py.round2 (_calculate_tier1_score t1) /\
  tier_2_score ts = Py.round2 (_calculate_tier2_score t2) /\
  tier_3_score ts = (fun r => Py.round2 (_calculate_tier3_score r)) <$> t3.
Proof.
  unfold calculate. destruct t3 as [r|]; simpl.
  - destruct (tier3_score_bounds r) as [_ T]. rewrite T.
    unfold TrustScore_new. intros H.
    repeat match type of H with
    | (if ?b then _ else _) = _ => destruct b; [discriminate|]
    end.
    injection H as <-. simpl. eauto.
  - match goal with
    | |- Py.bind ?m _ = _ -> _ => destruct m as [o|e]; simpl; [|discriminate]
    end.
    unfold TrustScore_new. intros H.
    repeat match type of H with
    | (if ?b then _ else _) = _ => destruct b; [discriminate|]
    end.
    injection H as <-. simpl. eauto.
Qed.

(** X2.  On a score that [calculate] returned the interval is exact: the
    overall score less and plus the margin, cut at 0 and at 100, where the
    margin is 5, or 10 when the judge was uncertain, and 3 more when no
    Tier-3 result went into the score. *)
Theorem confidence_interval_of_calculate (self : TrustScoreCalculator.t)
    (t1 : Tier1Result) (t2 : Tier2Result) (t3 : option Tier3Result)
    (ts : TrustScore) (tier2_uncertainty : bool) :
  calculate self t1 t2 t3 = Ok ts ->
  let margin := interval_margin tier2_uncertainty (bool_decide (is_Some t3)) in
  let interval := calculate_confidence_interval self ts tier2_uncertainty in
  fst interval == Qmax 0 (overall ts - margin) /\
  snd interval == Qmin 100 (overall ts + margin).
Proof.
  intros Hc margin interval. subst margin interval.
  destruct (calculate_shape self t1 t2 t3 ts Hc) as ((x & Ho) & _ & _ & H3).
  destruct (confidence_interval_margin self ts tier2_uncertainty) as (m & Hm & ->).
  assert (Hsame : bool_decide (is_Some (tier_3_score ts)) = bool_decide (is_Some t3)).
  { rewrite H3. destruct t3; reflexivity. }
  rewrite Hsame in Hm. simpl.
  set (M := interval_margin tier2_uncertainty (bool_decide (is_Some t3))) in *.
  assert (HM : exists k : Z, M == inject_Z k).
  { unfold M, interval_margin.
    destruct tier2_uncertainty, (bool_decide _);
      [exists 10%Z | exists 13%Z | exists 5%Z | exists 8%Z]; reflexivity. }
  destruct HM as (k & Hk).
  set (n := Py.round_half_even (x * 100)).
  assert (Hov : overall ts == inject_Z n / 100) by (rewrite Ho; reflexivity).
  assert (Hsub : overall ts - m == inject_Z (n - 100 * k) / 100).
  { unfold Z.sub. rewrite Hov, Hm, Hk, inject_Z_plus, inject_Z_opp, inject_Z_mult.
    change (inject_Z 100) with 100. field. }
  assert (Hadd : overall ts + m == inject_Z (n + 100 * k) / 100).
  { rewrite Hov, Hm, Hk, inject_Z_plus, inject_Z_mult.
    change (inject_Z 100) with 100. field. }
  split.
  - destruct (max_cases 0 (overall ts - m)) as [[H E] | [H E]]; rewrite E.
    + rewrite (round2_comp _ _ Hsub), round2_hundredths, <- Hsub, Hm.
      symmetry. apply Q.max_r. rewrite <- Hm. lra.
    + rewrite round2_zero. symmetry. apply Q.max_l. rewrite <- Hm. exact H.
  - destruct (min_cases 100 (overall ts + m)) as [[H E] | [H E]]; rewrite E.
    + rewrite (round2_comp _ _ Hadd), round2_hundredths, <- Hadd, Hm.
      symmetry. apply Q.min_r. rewrite <- Hm. lra.
    + rewrite round2_hundred. symmetry. apply Q.min_l. rewrite <- Hm. exact H.
Qed.

End ConfidenceIntervalFacts.

Lemma confidence_interval_of_calculate_witness :
  match TrustScoreCalculator.calculate default_calculator (tier1_pii_only 50)
          tier2_perfect None with
  | Ok ts =>
      (fst (TrustScoreCalculator.calculate_confidence_interval default_calculator
              ts false)
       == Qmax 0 (overall ts - interval_margin false false))%Q
  | Raise _ => False
  end.
Proof.
  destruct (TrustScoreCalculator.calculate default_calculator (tier1_pii_only 50)
              tier2_perfect None) as [ts|e] eqn:H.
  - exact (proj1 (confidence_interval_of_calculate default_calculator
                    (tier1_pii_only 50) tier2_perfect None ts false H)).
  - vm_compute in H. discriminate H.
Defined.

(** ** Sub-scores and their combination *)

Section SubScoreFacts.

Local Open Scope Q_scope.

Import TrustScoreCalculator.

(** X3.  A verdict that [submit_review] accepted scores 100 (approved), 60
    (needs_revision) or 20 (rejected): the default of 50 is never the score
    of a recorded verdict. *)
Theorem accepted_verdict_score (self self' : Tier3Evaluator.t)
    (id reviewer verdict notes : string) (corrected : option string) (now : Z)
    (r : Tier3Result) :
  Tier3Evaluator.submit_review self id reviewer verdict notes corrected now
    = Ok (self', r) ->
  _calculate_tier3_score r =
    (if String.eqb verdict "approved" then 100
     else if String.eqb verdict "needs_revision" then 60 else 20) /\
  ~ _calculate_tier3_score r == 50.
Proof.
  intros H.
  pose proof (submit_review_effect self id reviewer verdict notes
                corrected now) as E.
  rewrite H in E. destruct E as (Hin & -> & _).
  unfold _calculate_tier3_score. simpl.
  repeat (apply elem_of_cons in Hin as [-> | Hin]);
    [| | | now apply elem_of_nil in Hin];
    (split; [vm_compute; reflexivity | vm_compute; discriminate]).
Qed.

Lemma accepted_verdict_score_witness :
  match Tier3Evaluator.submit_review (Tier3Evaluator.__init__ 0.20) "e1" "reviewer"
          "rejected" "wrong" None 20 with
  | Ok (_, r) => _calculate_tier3_score r = 20
  | Raise _ => False
  end.
Proof.
  destruct (Tier3Evaluator.submit_review (Tier3Evaluator.__init__ 0.20) "e1"
              "reviewer" "rejected" "wrong" None 20) as [[self' r]|e] eqn:H.
  - exact (proj1 (accepted_verdict_score _ _ _ _ _ _ _ _ r H)).
  - vm_compute in H. discriminate H.
Defined.

(** The overall score [calculate] returns, before the range check. *)
Lemma calculate_overall (self : TrustScoreCalculator.t) (t1 : Tier1Result)
    (t2 : Tier2Result) (t3 : option Tier3Result) (ts : TrustScore) :
  calculate self t1 t2 t3 = Ok ts ->
  let w1 := tier1_weight self in
  let w2 := tier2_weight self in
  let w3 := tier3_weight self in
  let S1 := _calculate_tier1_score t1 in
  let S2 := _calculate_tier2_score t2 in
  match t3 with
  | Some r =>
      overall ts = Py.round2 (w1 * S1 + w2 * S2 + w3 * _calculate_tier3_score r)
  | None =>
      ~ w1 + w2 == 0 /\
      overall ts = Py.round2 (w1 / (w1 + w2) * S1 + w2 / (w1 + w2) * S2)
  end /\
  breakdown ts =
    [("tier1_weight"%string, w1); ("tier2_weight"%string, w2);
     ("tier3_weight"%string, w3);
     ("tier1_contribution"%string, w1 * S1);
     ("tier2_contribution"%string, w2 * S2)]
    ++ match t3 with
       | Some r => [("tier3_contribution"%string, w3 * _calculate_tier3_score r)]
       | None => []
       end
    ++ [("factual_accuracy"%string, inject_Z (score (factual_accuracy t2) * 20));
        ("safety_policy"%string, inject_Z (score (safety_policy t2) * 20));
        ("alignment_helpfulness"%string,
          inject_Z (score (alignment_helpfulness t2) * 20));
        ("tone_style"%string, inject_Z (score (tone_style t2) * 20));
        ("conciseness"%string, inject_Z (score (conciseness t2) * 20))].
Proof.
  unfold calculate. destruct t3 as [r|]; simpl.
  - unfold TrustScore_new. intros H.
    repeat match type of H with
    | (if ?b then _ else _) = _ => destruct b; [discriminate|]
    end.
    injection H as <-. simpl. split; reflexivity.
  - unfold Py.div.
    destruct (Qeq_bool (tier1_weight self + tier2_weight self) 0) eqn:E;
      simpl; [discriminate|].
    unfold TrustScore_new. intros H.
    repeat match type of H with
    | (if ?b then _ else _) = _ => destruct b; [discriminate|]
    end.
    injection H as <-. simpl. split; [|reflexivity]. split; [|reflexivity].
    apply not_true_iff_false in E. now rewrite Qeq_bool_iff in E.
Qed.

(** X4.  What the breakdown says about the overall score.  With a Tier-3
    result the overall score is the rounded sum of the three contributions
    listed.  Without one there is no Tier-3 contribution, and the two
    contributions listed are taken with the configured weights, not the
    renormalised ones: the overall score is their sum divided by the sum of
    the two weights, rounded. *)
Theorem breakdown_contributions (self : TrustScoreCalculator.t) (t1 : Tier1Result)
    (t2 : Tier2Result) (t3 : option Tier3Result) (ts : TrustScore) :
  calculate self t1 t2 t3 = Ok ts ->
  exists c1 c2,
    dict_get "tier1_contribution" (breakdown ts) = Some c1 /\
    dict_get "tier2_contribution" (breakdown ts) = Some c2 /\
    match t3 with
    | Some _ =>
        exists c3,
          dict_get "tier3_contribution" (breakdown ts) = Some c3 /\
          overall ts == Py.round2 (c1 + c2 + c3)
    | None =>
        dict_get "tier3_contribution" (breakdown ts) = None /\
        overall ts ==
          Py.round2 ((c1 + c2) / (tier1_weight self + tier2_weight self))
    end.
Proof.
  intros H. apply calculate_overall in H. cbv zeta in H. destruct H as [Ho ->].
  exists (tier1_weight self * _calculate_tier1_score t1),
         (tier2_weight self * _calculate_tier2_score t2).
  split; [reflexivity|]. split; [reflexivity|].
  destruct t3 as [r|].
  - exists (tier3_weight self * _calculate_tier3_score r).
    split; [reflexivity|]. rewrite Ho. reflexivity.
  - split; [reflexivity|]. destruct Ho as [Hne ->].
    apply round2_comp. field. exact Hne.
Qed.

Lemma breakdown_contributions_witness :
  match calculate default_calculator (tier1_pii_only 50) tier2_perfect None with
  | Ok ts =>
      dict_get "tier3_contribution" (breakdown ts) = None /\
      dict_get "tier1_contribution" (breakdown ts) = Some (0.25 * 60) /\
      overall ts == 87.5
  | Raise _ => False
  end.
Proof.
  destruct (calculate default_calculator (tier1_pii_only 50) tier2_perfect None)
    as [ts|e] eqn:H.
  - destruct (breakdown_contributions _ _ _ _ ts H) as (c1 & c2 & _ & _ & Hn & _).
    split; [exact Hn|].
    vm_compute in H. injection H as <-. split; reflexivity.
  - vm_compute in H. discriminate H.
Defined.

(** X5.  With non-negative weights the overall score is monotone in the
    sub-scores: raising the Tier-1 sub-score, the Tier-2 sub-score or the
    Tier-3 sub-score of the results never lowers what [calculate] returns,
    with or without a Tier-3 result. *)
Theorem calculate_monotone (self : TrustScoreCalculator.t)
    (t1 t1' : Tier1Result) (t2 t2' : Tier2Result) (t3 t3' : option Tier3Result)
    (ts ts' : TrustScore) :
  0 <= tier1_weight self -> 0 <= tier2_weight self -> 0 <= tier3_weight self ->
  _calculate_tier1_score t1 <= _calculate_tier1_score t1' ->
  _calculate_tier2_score t2 <= _calculate_tier2_score t2' ->
  match t3, t3' with
  | Some r, Some r' => _calculate_tier3_score r <= _calculate_tier3_score r'
  | None, None => True
  | _, _ => False
  end ->
  calculate self t1 t2 t3 = Ok ts ->
  calculate self t1' t2' t3' = Ok ts' ->
  overall ts <= overall ts'.
Proof.
  intros H1 H2 H3 L1 L2 L3 C C'.
  apply calculate_overall in C, C'. cbv zeta in C, C'.
  destruct C as [C _], C' as [C' _].
  destruct t3 as [r|], t3' as [r'|]; try contradiction.
  - rewrite C, C'. apply round2_mono. nra.
  - destruct C as [Hne ->], C' as [_ ->]. apply round2_mono.
    assert (Hpos : 0 < tier1_weight self + tier2_weight self) by lra.
    assert (A1 : 0 <= tier1_weight self / (tier1_weight self + tier2_weight self))
      by (apply Qle_shift_div_l; lra).
    assert (A2 : 0 <= tier2_weight self / (tier1_weight self + tier2_weight self))
      by (apply Qle_shift_div_l; lra).
    nra.
Qed.

Lemma calculate_monotone_witness :
  match calculate default_calculator (tier1_pii_only 50) tier2_good None,
        calculate default_calculator tier1_passed tier2_perfect None with
  | Ok ts, Ok ts' => overall ts <= overall ts'
  | _, _ => False
  end.
Proof.
  destruct (calculate default_calculator (tier1_pii_only 50) tier2_good None)
    as [ts|e] eqn:H; [|vm_compute in H; discriminate H].
  destruct (calculate default_calculator tier1_passed tier2_perfect None)
    as [ts'|e] eqn:H'; [|vm_compute in H'; discriminate H'].
  apply (calculate_monotone default_calculator (tier1_pii_only 50) tier1_passed
           tier2_good tier2_perfect None None ts ts'); try assumption;
    try exact I; vm_compute; discriminate.
Defined.

End SubScoreFacts.

(** ** Judge results *)

Section JudgeFacts.

Local Open Scope Q_scope.

Import Tier2Evaluator.

Lemma read_dimension_inv (eval_data : EvalData) (name : string) (d : Tier2Dimension) :
  read_dimension eval_data name = Ok d ->
  entries eval_data !! name = Some (score d, reasoning d) /\
  (1 <= score d <= 5)%Z /\ Tier2Dimension_valid d = true.
Proof.
  unfold read_dimension.
  destruct (entries eval_data !! name) as [[s why]|]; [|discriminate].
  destruct (Tier2Dimension_valid _) eqn:V; [|discriminate].
  intros [= <-]. simpl. split; [reflexivity|]. split; [|exact V].
  unfold Tier2Dimension_valid in V. simpl in V.
  apply andb_true_iff in V as [V1 V2]. apply Z.leb_le in V1, V2. lia.
Qed.

(** Taking apart a result that [build_result] returned. *)
Lemma build_result_inv (self : Tier2Evaluator.t) (eval_data : EvalData)
    (r : Tier2Result) :
  build_result self eval_data = Ok r ->
  read_dimension eval_data "factual_accuracy" = Ok (factual_accuracy r) /\
  read_dimension eval_data "safety_policy" = Ok (safety_policy r) /\
  read_dimension eval_data "alignment_helpfulness" = Ok (alignment_helpfulness r) /\
  read_dimension eval_data "tone_style" = Ok (tone_style r) /\
  read_dimension eval_data "conciseness" = Ok (conciseness r) /\
  overall_score r = inject_Z (dimension_sum r) / 5.0 /\
  uncertainty_flag r = default false (eval_uncertainty_flag eval_data) /\
  judge_model r = self_judge_model self.
Proof.
  unfold build_result.
  destruct (read_dimension eval_data "factual_accuracy") as [d1|]; [|discriminate].
  destruct (read_dimension eval_data "safety_policy") as [d2|]; [|discriminate].
  destruct (read_dimension eval_data "alignment_helpfulness") as [d3|]; [|discriminate].
  destruct (read_dimension eval_data "tone_style") as [d4|]; [|discriminate].
  destruct (read_dimension eval_data "conciseness") as [d5|]; [|discriminate].
  simpl. destruct (Py.in_range 0 5 _); [|discriminate].
  intros [= <-]. simpl. repeat split.
Qed.

(** The mean of five scores between 1 and 5. *)
Lemma build_result_mean (self : Tier2Evaluator.t) (eval_data : EvalData)
    (r : Tier2Result) :
  build_result self eval_data = Ok r ->
  (5 <= dimension_sum r <= 25)%Z /\
  overall_score r == inject_Z (dimension_sum r) / 5 /\
  1 <= overall_score r <= 5.
Proof.
  intros H. apply build_result_inv in H as (H1 & H2 & H3 & H4 & H5 & Ho & _).
  apply read_dimension_inv in H1 as (_ & B1 & _), H2 as (_ & B2 & _),
    H3 as (_ & B3 & _), H4 as (_ & B4 & _), H5 as (_ & B5 & _).
  assert (Hsum : (5 <= dimension_sum r <= 25)%Z) by (unfold dimension_sum; lia).
  assert (Hq : 5 <= inject_Z (dimension_sum r) <= 25).
  { destruct Hsum as [L U]. rewrite Zle_Qle in L, U. exact (conj L U). }
  assert (Hmean : overall_score r == inject_Z (dimension_sum r) / 5).
  { rewrite Ho. apply Qdiv_comp; reflexivity. }
  split; [exact Hsum|]. split; [exact Hmean|].
  rewrite Hmean. split; [apply Qle_shift_div_l | apply Qle_shift_div_r]; lra.
Qed.

(** What [build_result] returns passes the checks of the class. *)
Lemma build_result_in_class (self : Tier2Evaluator.t) (eval_data : EvalData)
    (r : Tier2Result) :
  build_result self eval_data = Ok r -> Tier2Result_valid r = true.
Proof.
  intros H. destruct (build_result_mean _ _ _ H) as (_ & _ & Hrange).
  apply build_result_inv in H as (H1 & H2 & H3 & H4 & H5 & _).
  apply read_dimension_inv in H1 as (_ & _ & V1), H2 as (_ & _ & V2),
    H3 as (_ & _ & V3), H4 as (_ & _ & V4), H5 as (_ & _ & V5).
  unfold Tier2Result_valid. rewrite V1, V2, V3, V4, V5. simpl.
  apply in_range_iff. lra.
Qed.

(** X6.  A judgement that [evaluate] builds from the judge's answer
    satisfies the constraints of [Tier2Result]: every dimension score is
    between 1 and 5, and the overall score is the mean of the five, hence
    between 1 and 5.  An absent uncertainty flag reads as false. *)
Theorem build_result_valid (self : Tier2Evaluator.t) (eval_data : EvalData)
    (r : Tier2Result) :
  build_result self eval_data = Ok r ->
  Tier2Result_valid r = true /\
  overall_score r == inject_Z (dimension_sum r) / 5 /\
  1 <= overall_score r <= 5 /\
  (5 <= dimension_sum r <= 25)%Z /\
  uncertainty_flag r = default false (eval_uncertainty_flag eval_data).
Proof.
  intros H.
  destruct (build_result_mean _ _ _ H) as (Hsum & Hmean & Hrange).
  pose proof (build_result_in_class _ _ _ H) as Hv.
  apply build_result_inv in H as (_ & _ & _ & _ & _ & _ & Hu & _).
  split; [exact Hv|]. split; [exact Hmean|]. split; [exact Hrange|].
  split; [exact Hsum | exact Hu].
Qed.

Lemma build_result_valid_witness :
  match build_result sample_judge (uniform_answer 4 None) with
  | Ok r => overall_score r == 4 /\ uncertainty_flag r = false
  | Raise _ => False
  end.
Proof.
  destruct (build_result sample_judge (uniform_answer 4 None)) as [r|e] eqn:H.
  - destruct (build_result_valid _ _ r H) as (_ & Hm & _ & _ & Hu).
    vm_compute in H. injection H as <-. split; reflexivity.
  - vm_compute in H. discriminate H.
Defined.

(** X8.  The Tier-2 sub-score of a judgement built from the judge's answer
    is four times the sum of its dimension scores, and 3.6 times that sum
    when the judge was uncertain: rounding changes neither, so the score
    of the uncertain judgement is exactly 90% of the certain one's. *)
Theorem judged_tier2_score (self : Tier2Evaluator.t) (eval_data : EvalData)
    (r : Tier2Result) :
  build_result self eval_data = Ok r ->
  TrustScoreCalculator._calculate_tier2_score r ==
    (if uncertainty_flag r then 0.9 else 1) * (4 * inject_Z (dimension_sum r)) /\
  20 <= 4 * inject_Z (dimension_sum r) <= 100.
Proof.
  intros H. destruct (build_result_mean self eval_data r H) as (Hs & Hm & _).
  split.
  - unfold TrustScoreCalculator._calculate_tier2_score.
    destruct (uncertainty_flag r).
    + assert (E : overall_score r / 5 * 100 * 0.9
                  == inject_Z (360 * dimension_sum r) / 100).
      { rewrite Hm, inject_Z_mult. change (inject_Z 360) with 360. field. }
      rewrite (round2_comp _ _ E), round2_hundredths, inject_Z_mult.
      change (inject_Z 360) with 360. field.
    + assert (E : overall_score r / 5 * 100
                  == inject_Z (400 * dimension_sum r) / 100).
      { rewrite Hm, inject_Z_mult. change (inject_Z 400) with 400. field. }
      rewrite (round2_comp _ _ E), round2_hundredths, inject_Z_mult.
      change (inject_Z 400) with 400. field.
  - destruct Hs as [L U]. rewrite Zle_Qle in L, U.
    change (inject_Z 5) with 5 in L. change (inject_Z 25) with 25 in U. lra.
Qed.

Lemma judged_tier2_score_witness :
  match build_result sample_judge (uniform_answer 4 (Some true)) with
  | Ok r => TrustScoreCalculator._calculate_tier2_score r == 72
  | Raise _ => False
  end.
Proof.
  destruct (build_result sample_judge (uniform_answer 4 (Some true))) as [r|e] eqn:H.
  - destruct (judged_tier2_score _ _ r H) as [Hs _]. rewrite Hs.
    vm_compute in H. injection H as <-. reflexivity.
  - vm_compute in H. discriminate H.
Defined.

End JudgeFacts.

(** ** Rule checker *)

Section RuleCheckerFacts.

Local Open Scope Q_scope.

Variable _check_pii : string -> bool.
Variable _check_profanity : string -> bool.
Variable _count_tokens : string -> Z.
Variable _calculate_rouge : string -> string -> Q.
Variable _calculate_bleu : string -> string -> Q.

Let evaluate :=
  Tier1Evaluator.evaluate _check_pii _check_profanity _count_tokens
    _calculate_rouge _calculate_bleu.

(** X9.  An outcome of the rule checker passed exactly when no detector
    fired and the token count is within the limit; reference metrics are
    there exactly when a non-empty reference was given.  With a ROUGE
    score of at most 1, its Tier-1 sub-score is 100 exactly when it
    passed, and at most 95 otherwise. *)
Theorem tier1_outcome_score (self : Tier1Evaluator.t) (model_output : string)
    (ground_truth : option string) :
  (forall candidate reference, _calculate_rouge candidate reference <= 1) ->
  let r := evaluate self model_output ground_truth in
  (passed r = true <->
   _check_pii model_output = false /\ _check_profanity model_output = false /\
   (_count_tokens model_output <= Tier1Evaluator.token_limit self)%Z) /\
  (is_Some (rouge_score r) <->
   exists g, ground_truth = Some g /\ g <> ""%string) /\
  (is_Some (bleu_score r) <-> is_Some (rouge_score r)) /\
  (TrustScoreCalculator._calculate_tier1_score r == 100 <-> passed r = true) /\
  (passed r = false -> TrustScoreCalculator._calculate_tier1_score r <= 95).
Proof.
  intros Hrouge r.
  assert (Hcons : Tier1Result_consistent r).
  { split; [reflexivity|]. subst r evaluate. simpl.
    destruct ground_truth as [g|]; simpl; [|exact I].
    destruct (String.eqb g ""); simpl; [exact I | apply Hrouge]. }
  split.
  { subst r evaluate. simpl.
    rewrite negb_true_iff, !orb_false_iff, Z.ltb_ge. tauto. }
  split.
  { subst r evaluate. simpl. destruct ground_truth as [g|]; simpl.
    - destruct (String.eqb_spec g ""); simpl.
      + split; [intros [? [=]] | intros (g' & [= <-] & Hne); contradiction].
      + split; [eauto | eauto].
    - split; [intros [? [=]] | intros (g' & [=] & _)]. }
  split.
  { subst r evaluate. simpl. destruct ground_truth as [g|]; simpl; [|tauto].
    destruct (String.eqb g ""); simpl; split; intros [? [=]]; eauto. }
  split.
  - split.
    + intros Hs. destruct (passed r) eqn:Hp; [reflexivity|exfalso].
      pose proof (tier1_failed_score_le_95 r Hcons Hp). lra.
    + intros Hp. unfold TrustScoreCalculator._calculate_tier1_score.
      now rewrite Hp.
  - now apply tier1_failed_score_le_95.
Qed.

End RuleCheckerFacts.

Lemma tier1_outcome_score_witness :
  (forall candidate reference, (sample_similarity candidate reference <= 1)%Q) /\
  (passed (sample_tier1_evaluate (Tier1Evaluator.__init__ 4096)
             "mail me at a@b.c" None) = false /\
   (TrustScoreCalculator._calculate_tier1_score
      (sample_tier1_evaluate (Tier1Evaluator.__init__ 4096)
         "mail me at a@b.c" None) <= 95)%Q).
Proof.
  assert (H : forall candidate reference,
            (sample_similarity candidate reference <= 1)%Q).
  { intros c r. unfold sample_similarity. destruct (String.eqb c r); discriminate. }
  split; [exact H|]. split; [reflexivity|].
  apply (tier1_outcome_score sample_check_pii sample_check_profanity
           sample_count_tokens sample_similarity sample_similarity
           (Tier1Evaluator.__init__ 4096) "mail me at a@b.c" None H).
  reflexivity.
Defined.

(** ** Review queue: status, dequeue, insertion *)

Section ReviewQueueMore.

Import Tier3Evaluator.

Implicit Types (queue : list HumanReviewRequest).

(** The counting loop of [get_queue_status], started from any table. *)
Lemma priority_counts_spec queue (counts : gmap Z nat) (p : Z) :
  default 0%nat
    (foldl (fun (acc : gmap Z nat) r =>
              <[priority r := (default 0%nat (acc !! priority r) + 1)%nat]> acc)
       counts queue !! p)
  = (default 0%nat (counts !! p) + count_priority p queue)%nat.
Proof.
  revert counts. induction queue as [|r queue IH]; intros counts; simpl.
  - unfold count_priority. simpl. lia.
  - rewrite IH. unfold count_priority. simpl.
    destruct (Z.eqb_spec (priority r) p) as [-> | Hne]; simpl.
    + rewrite lookup_insert_eq. simpl. lia.
    + rewrite lookup_insert_ne by exact Hne. reflexivity.
Qed.

Lemma priority_counts_None queue (counts : gmap Z nat) (p : Z) :
  foldl (fun (acc : gmap Z nat) r =>
           <[priority r := (default 0%nat (acc !! priority r) + 1)%nat]> acc)
    counts queue !! p = None
  <-> counts !! p = None /\ count_priority p queue = 0%nat.
Proof.
  revert counts. induction queue as [|r queue IH]; intros counts; simpl.
  - unfold count_priority. simpl. tauto.
  - rewrite IH. unfold count_priority. simpl.
    destruct (Z.eqb_spec (priority r) p) as [-> | Hne]; simpl.
    + rewrite lookup_insert_eq. split; [intros [[=] _] | intros [_ [=]]].
    + rewrite lookup_insert_ne by exact Hne. reflexivity.
Qed.

(** Every request in a queue reached by calls of the coordinator has a
    priority from 1 to 5. *)
Lemma queue_run_priorities (ops : list queue_op) :
  Forall (fun r => (1 <= priority r <= 5)%Z) (review_queue (queue_run ops)).
Proof.
  unfold queue_run. induction ops as [|op ops IH] using rev_ind.
  - constructor.
  - rewrite foldl_app. simpl.
    set (self := foldl queue_step (Tier3Evaluator.__init__ 0.20) ops) in *.
    destruct op as [id why p now | | id reviewer verdict notes corrected now]; simpl.
    + destruct (queue_review self id why p now) as [[self' request]|e] eqn:E;
        [|exact IH].
      assert (Hp : (1 <= p <= 5)%Z).
      { unfold queue_review, HumanReviewRequest_new in E.
        destruct ((1 <=? p)%Z && (p <=? 5)%Z) eqn:B; [|discriminate].
        apply andb_true_iff in B as [B1 B2]. apply Z.leb_le in B1, B2. lia. }
      destruct (queue_review_split self id why p now Hp)
        as (self2 & front & back & E2 & Hq & Hq' & _).
      rewrite E in E2. injection E2 as -> _.
      rewrite Hq in IH. rewrite Hq'.
      apply Forall_app in IH as [Hf Hb].
      apply Forall_app. split; [exact Hf|]. constructor; [exact Hp | exact Hb].
    + unfold get_next_review. destruct (review_queue self) as [|r rest] eqn:E; simpl.
      * now rewrite E.
      * now apply Forall_cons in IH as [_ IH].
    + pose proof (submit_review_effect self id reviewer verdict notes corrected now)
        as H.
      destruct (submit_review self id reviewer verdict notes corrected now)
        as [[self' result]|e]; [|exact IH].
      destruct H as (_ & _ & _ & _ & _ & ->). exact IH.
Qed.

Lemma count_priority_total queue :
  Forall (fun r => (1 <= priority r <= 5)%Z) queue ->
  length queue =
    (count_priority 1 queue + count_priority 2 queue + count_priority 3 queue +
     count_priority 4 queue + count_priority 5 queue)%nat.
Proof.
  unfold count_priority. induction 1 as [|r queue Hr _ IH]; simpl; [reflexivity|].
  rewrite IH.
  assert (Hcase : priority r = 1%Z \/ priority r = 2%Z \/ priority r = 3%Z \/
                  priority r = 4%Z \/ priority r = 5%Z) by lia.
  destruct Hcase as [-> | [-> | [-> | [-> | ->]]]]; simpl; lia.
Qed.

(** X10.  [get_queue_status] counts correctly: the total is the length of
    the queue, the breakdown has an entry for a priority exactly when some
    queued request has it, and the entry is the number of such requests.
    For a coordinator reached by its own calls the entries of priorities 1
    to 5 add up to the total. *)
Theorem queue_status_counts :
  (forall (self : Tier3Evaluator.t) (p : Z),
     let status := get_queue_status self in
     total_in_queue status = length (review_queue self) /\
     breakdown_count status p = count_priority p (review_queue self) /\
     (priority_breakdown status !! p = None <->
      count_priority p (review_queue self) = 0%nat) /\
     completed_reviews_count status = size (completed_reviews self)) /\
  (forall ops : list queue_op,
     let status := get_queue_status (queue_run ops) in
     total_in_queue status =
       (breakdown_count status 1 + breakdown_count status 2 +
        breakdown_count status 3 + breakdown_count status 4 +
        breakdown_count status 5)%nat).
Proof.
  assert (Hcount : forall (self : Tier3Evaluator.t) (p : Z),
            breakdown_count (get_queue_status self) p
            = count_priority p (review_queue self)).
  { intros self p. unfold breakdown_count, get_queue_status. simpl.
    rewrite priority_counts_spec, lookup_empty. reflexivity. }
  split.
  - intros self p status. subst status.
    split; [reflexivity|]. split; [apply Hcount|]. split; [|reflexivity].
    unfold get_queue_status. simpl.
    rewrite priority_counts_None, lookup_empty. tauto.
  - intros ops status. subst status. rewrite !Hcount.
    apply count_priority_total, queue_run_priorities.
Qed.

(** X11.  On a coordinator reached by its own calls, [get_next_review]
    returns a request whose priority is at least that of every request it
    leaves queued, and removes exactly that request; on an empty queue it
    returns nothing and changes nothing. *)
Theorem next_review_is_highest (ops : list queue_op) :
  let self := queue_run ops in
  match get_next_review self with
  | (self', Some r) =>
      review_queue self = r :: review_queue self' /\
      Forall (fun x => (priority x <= priority r)%Z) (review_queue self') /\
      (1 <= priority r <= 5)%Z /\
      completed_reviews self' = completed_reviews self
  | (self', None) => review_queue self = [] /\ self' = self
  end.
Proof.
  intros self.
  pose proof (queue_run_descending ops) as Hd.
  pose proof (queue_run_priorities ops) as Hp.
  fold self in Hd, Hp. unfold get_next_review.
  destruct (review_queue self) as [|r rest] eqn:E; simpl; [auto|].
  apply StronglySorted_cons in Hd as [Hd _].
  apply Forall_cons in Hp as [Hp _]. auto.
Qed.

(** X12.  [queue_review] loses and duplicates nothing: when it returns, the
    queue is a rearrangement of the old queue with the new request, one
    longer, and the recorded verdicts are as before.  It raises exactly
    when the priority is not from 1 to 5. *)
Theorem queue_review_permutation (self : Tier3Evaluator.t) (id why : string)
    (p now : Z) :
  match queue_review self id why p now with
  | Ok (self', request) =>
      (1 <= p <= 5)%Z /\
      request = {| evaluation_id := id; priority := p; reason := why;
                   flagged_at := now |} /\
      review_queue self' ≡ₚ request :: review_queue self /\
      length (review_queue self') = S (length (review_queue self)) /\
      completed_reviews self' = completed_reviews self
  | Raise e => ~ (1 <= p <= 5)%Z /\ e = ValidationError "priority"
  end.
Proof.
  destruct (decide (1 <= p <= 5)%Z) as [Hp | Hp].
  - destruct (queue_review_split self id why p now Hp)
      as (self' & front & back & -> & Hq & Hq' & Hc & _).
    split; [exact Hp|]. split; [reflexivity|].
    rewrite Hq, Hq'. split; [|split; [|exact Hc]].
    + symmetry. apply Permutation_middle.
    + rewrite !length_app. simpl. lia.
  - unfold queue_review, HumanReviewRequest_new.
    replace ((1 <=? p)%Z && (p <=? 5)%Z) with false; [simpl; auto|].
    symmetry. apply not_true_iff_false. rewrite andb_true_iff, !Z.leb_le. lia.
Qed.

End ReviewQueueMore.

(** ** Review store *)

Section ReviewStoreFacts.

Import Tier3Evaluator.

(** X13.  The store of verdicts behaves as a map with last write wins: a
    verdict that [submit_review] accepts is what [get_review_result] then
    returns for that evaluation, a second accepted verdict for the same
    evaluation replaces the first without adding an entry, and the result
    stored for any other evaluation is untouched. *)
Theorem submit_review_store (self : Tier3Evaluator.t)
    (id reviewer verdict notes reviewer' verdict' notes' : string)
    (corrected corrected' : option string) (now now' : Z) :
  match submit_review self id reviewer verdict notes corrected now with
  | Ok (self1, r1) =>
      get_review_result self1 id = Some r1 /\
      (forall other, other <> id ->
         get_review_result self1 other = get_review_result self other) /\
      size (completed_reviews self1) =
        (if decide (is_Some (get_review_result self id))
         then size (completed_reviews self)
         else S (size (completed_reviews self))) /\
      match submit_review self1 id reviewer' verdict' notes' corrected' now' with
      | Ok (self2, r2) =>
          get_review_result self2 id = Some r2 /\
          r2 = {| reviewer_id := reviewer'; verdict := verdict'; notes := notes';
                  corrected_output := corrected'; reviewed_at := now' |} /\
          size (completed_reviews self2) = size (completed_reviews self1)
      | Raise _ => True
      end
  | Raise _ => True
  end.
Proof.
  pose proof (submit_review_effect self id reviewer verdict notes corrected now) as H1.
  destruct (submit_review self id reviewer verdict notes corrected now)
    as [[self1 r1]|e1]; [|exact I].
  destruct H1 as (_ & _ & Hm1 & Hg1 & Ho1 & _).
  split; [exact Hg1|]. split; [exact Ho1|]. split.
  { rewrite Hm1. unfold get_review_result.
    destruct (completed_reviews self !! id) as [old|] eqn:E.
    - rewrite decide_True by eauto.
      rewrite <- (insert_delete_id (completed_reviews self) id old E) at 2.
      rewrite <- insert_delete_eq.
      rewrite !map_size_insert_None by apply lookup_delete_eq. reflexivity.
    - rewrite decide_False by (intros [? [=]]).
      now apply map_size_insert_None. }
  pose proof (submit_review_effect self1 id reviewer' verdict' notes' corrected' now')
    as H2.
  destruct (submit_review self1 id reviewer' verdict' notes' corrected' now')
    as [[self2 r2]|e2]; [|exact I].
  destruct H2 as (_ & Hr2 & Hm2 & Hg2 & _).
  split; [exact Hg2|]. split; [exact Hr2|].
  rewrite Hm2. unfold get_review_result in Hg1.
  rewrite <- (insert_delete_id (completed_reviews self1) id r1 Hg1) at 2.
  rewrite <- insert_delete_eq.
  rewrite !map_size_insert_None by apply lookup_delete_eq. reflexivity.
Qed.

End ReviewStoreFacts.

(** ** Drift monitor: thresholds, baseline, alerts *)

Section DriftMonitorMore.

Local Open Scope Q_scope.

Import DriftMonitor.

Lemma or_default_nonzero (arg : option Q) (dflt : Q) :
  ~ dflt == 0 -> ~ Py.or_default arg dflt == 0.
Proof.
  intros Hd. unfold Py.or_default. destruct arg as [x|]; [|exact Hd].
  destruct (Py.truthy x) eqn:T; [|exact Hd]. now apply truthy_true.
Qed.

(** X14.  A threshold of 0.0 passed to [DriftMonitor] is replaced by the
    environment or default value, as an omitted one is.  So when the
    environment sets no threshold, no monitor has a zero threshold, whatever
    the arguments. *)
Theorem monitor_zero_threshold_replaced :
  (forall (env : Env) (a : option Q),
     DriftMonitor.__init__ env (Some 0) a = DriftMonitor.__init__ env None a /\
     DriftMonitor.__init__ env a (Some 0) = DriftMonitor.__init__ env a None) /\
  (forall a r : option Q,
     ~ absolute_threshold (DriftMonitor.__init__ empty_env a r) == 0 /\
     ~ relative_threshold (DriftMonitor.__init__ empty_env a r) == 0) /\
  absolute_threshold (DriftMonitor.__init__ empty_env (Some 0) (Some 0)) == 5 /\
  relative_threshold (DriftMonitor.__init__ empty_env (Some 0) (Some 0)) == 0.1.
Proof.
  split; [intros env a; split; reflexivity|].
  split; [|split; reflexivity].
  intros a r. unfold DriftMonitor.__init__. simpl.
  split; apply or_default_nonzero; discriminate.
Qed.

(** The rows of the baseline query after one more row is stored. *)
Lemma baseline_rows_add (db : Database) (row : DriftMetric.t) (name : string)
    (lookback_days : Z) (model dataset : option string) (now : Z) :
  baseline_rows (Db.add_drift_metric row db) name lookback_days model dataset now =
  baseline_rows db name lookback_days model dataset now ++
  (if String.eqb (DriftMetric.metric_name row) name &&
      (now - days lookback_days <=? DriftMetric.recorded_at row)%Z &&
      (if given model
       then column_eq (DriftMetric.model_name row) (default ""%string model)
       else true) &&
      (if given dataset
       then column_eq (DriftMetric.dataset_name row) (default ""%string dataset)
       else true)
   then [row] else []).
Proof.
  unfold baseline_rows. simpl.
  rewrite List.filter_app. simpl.
  destruct (String.eqb (DriftMetric.metric_name row) name &&
            (now - days lookback_days <=? DriftMetric.recorded_at row)%Z); simpl.
  - destruct (given model); simpl.
    + rewrite List.filter_app. simpl.
      destruct (column_eq (DriftMetric.model_name row) _); simpl.
      * destruct (given dataset); simpl; [|reflexivity].
        rewrite List.filter_app. simpl.
        now destruct (column_eq (DriftMetric.dataset_name row) _).
      * rewrite app_nil_r. destruct (given dataset); now rewrite ?app_nil_r.
    + destruct (given dataset); simpl; [|reflexivity].
      rewrite List.filter_app. simpl.
      now destruct (column_eq (DriftMetric.dataset_name row) _).
  - rewrite app_nil_r.
    destruct (given model), (given dataset); now rewrite ?app_nil_r.
Qed.

(** X15.  The baseline of a metric is not moved by rows that its query does
    not select: a row of another metric, a row recorded before the window,
    or, when a model (dataset) filter is given, a row of another model
    (dataset). *)
Theorem baseline_ignores_other_rows (self : DriftMonitor.t) (db : Database)
    (row : DriftMetric.t) (name : string) (lookback_days : Z)
    (model dataset : option string) (now : Z) :
  DriftMetric.metric_name row <> name \/
  (DriftMetric.recorded_at row < now - lookback_days * 86400)%Z \/
  (given model = true /\ DriftMetric.model_name row <> model) \/
  (given dataset = true /\ DriftMetric.dataset_name row <> dataset) ->
  calculate_baseline self (Db.add_drift_metric row db) name lookback_days
    model dataset now
  = calculate_baseline self db name lookback_days model dataset now.
Proof.
  intros H. unfold calculate_baseline. rewrite baseline_rows_add.
  match goal with
  | |- context [if ?c then [row] else []] =>
      replace c with false; [now rewrite app_nil_r|]
  end.
  symmetry. apply not_true_iff_false. rewrite !andb_true_iff.
  intros [[[Hn Ht] Hm] Hd].
  destruct H as [H | [H | [[G H] | [G H]]]].
  - apply String.eqb_eq in Hn. contradiction.
  - apply Z.leb_le in Ht. unfold days in Ht. lia.
  - rewrite G in Hm. apply H.
    destruct model as [m|]; [|discriminate]. simpl in Hm.
    destruct (DriftMetric.model_name row) as [m'|]; [|discriminate].
    simpl in Hm. apply String.eqb_eq in Hm. now subst.
  - rewrite G in Hd. apply H.
    destruct dataset as [d|]; [|discriminate]. simpl in Hd.
    destruct (DriftMetric.dataset_name row) as [d'|]; [|discriminate].
    simpl in Hd. apply String.eqb_eq in Hd. now subst.
Qed.

Lemma baseline_ignores_other_rows_witness :
  calculate_baseline default_monitor
    (Db.add_drift_metric
       {| DriftMetric.metric_name := "latency"; DriftMetric.metric_value := 3;
          DriftMetric.baseline_value := None; DriftMetric.model_name := None;
          DriftMetric.dataset_name := None; DriftMetric.recorded_at := 1000 |}
       (db_with_samples "trust_score" [80] 1000))
    "trust_score" 7 None None 1000
  = calculate_baseline default_monitor (db_with_samples "trust_score" [80] 1000)
      "trust_score" 7 None None 1000.
Proof.
  apply baseline_ignores_other_rows. left. simpl. discriminate.
Defined.

(** A sample is selected by the query made with the tags it was recorded
    under. *)
Lemma column_eq_given (tag : option string) :
  given tag = true -> column_eq tag (default ""%string tag) = true.
Proof.
  destruct tag as [v|]; [|discriminate]. intros _. simpl. apply String.eqb_refl.
Qed.

Lemma baseline_rows_record (self : DriftMonitor.t) (db : Database) (name : string)
    (v : Q) (model dataset : option string) (b : option Q) (now : Z) :
  exists row,
    DriftMetric.metric_value row = v /\
    baseline_rows (record_metric self db name v model dataset b now)
      name 7 model dataset now
    = baseline_rows db name 7 model dataset now ++ [row].
Proof.
  eexists. split; [|unfold record_metric; rewrite baseline_rows_add].
  2: { match goal with
       | |- _ ++ (if ?c then _ else _) = _ => replace c with true; [reflexivity|]
       end.
       symmetry. simpl. rewrite String.eqb_refl. simpl.
       rewrite !andb_true_iff. repeat split.
       - apply Z.leb_le. unfold days. lia.
       - destruct (given model) eqn:G; [now apply column_eq_given | reflexivity].
       - destruct (given dataset) eqn:G; [now apply column_eq_given | reflexivity]. }
  reflexivity.
Qed.

(** X16.  The first sample of a series never raises an alert: when no
    earlier row matches, recording a value and then checking it for drift
    under the same tags, as the orchestrator does, compares the value with
    itself (or finds no baseline when it is zero), and with positive
    thresholds returns no alert. *)
Theorem first_sample_never_alerts (self : DriftMonitor.t) (db : Database)
    (name : string) (v : Q) (model dataset : option string) (b : option Q)
    (now : Z) (alert_id : string) :
  baseline_rows db name 7 model dataset now = [] ->
  0 < absolute_threshold self -> 0 < relative_threshold self ->
  let db1 := record_metric self db name v model dataset b now in
  check_drift self db1 name v model dataset now alert_id = (db1, None).
Proof.
  intros Hnone Ha Hr db1. subst db1.
  destruct (baseline_rows_record self db name v model dataset b now)
    as (row & Hv & Hrows).
  rewrite Hnone in Hrows. simpl in Hrows.
  unfold check_drift, calculate_baseline. rewrite Hrows. simpl. rewrite Hv.
  match goal with
  | |- context [Py.truthy ?x] => set (base := x)
  end.
  assert (Hb : base == v).
  { unfold base. change (inject_Z (Z.of_nat 1)) with 1. field. }
  destruct (Py.truthy base) eqn:T; [|reflexivity].
  assert (Habs : Py.abs (v - base) == 0).
  { destruct (abs_cases (v - base)) as [[H ->] | [H ->]]; lra. }
  assert (L1 : Py.ltb (Py.abs (v - base)) (absolute_threshold self) = true).
  { apply ltb_lt. lra. }
  assert (L2 : Py.ltb (if negb (Qeq_bool base 0)
                       then Py.abs (v - base) / base else 0)
                 (relative_threshold self) = true).
  { apply ltb_lt. destruct (negb (Qeq_bool base 0)); [|exact Hr].
    assert (E : Py.abs (v - base) / base == 0).
    { rewrite Habs. unfold Qdiv. ring. }
    lra. }
  now rewrite L1, L2.
Qed.

Lemma first_sample_never_alerts_witness :
  check_drift default_monitor
    (record_metric default_monitor empty_db "trust_score" 87.5 (Some "m"%string)
       None None 1000)
    "trust_score" 87.5 (Some "m"%string) None 1000 "a"
  = (record_metric default_monitor empty_db "trust_score" 87.5 (Some "m"%string)
       None None 1000, None).
Proof.
  apply (first_sample_never_alerts default_monitor empty_db "trust_score" 87.5
           (Some "m"%string) None None 1000 "a"); reflexivity.
Defined.

End DriftMonitorMore.

Section DriftAlertFacts.

Local Open Scope Q_scope.

Import DriftMonitor.





End DriftAlertFacts.

(** ** Reading an evaluation back *)

Section ReadBack.

Import CEEPipeline.

Lemma find_evaluation_new (id : string) (rows : list Evaluation.t) (e : Evaluation.t) :
  Evaluation.id e = id ->
  List.find (fun x => String.eqb (Evaluation.id x) id) rows = None ->
  List.find (fun x => String.eqb (Evaluation.id x) id) (rows ++ [e]) = Some e.
Proof.
  intros <- Hnone. induction rows as [|x rows IH]; simpl in *.
  - now rewrite String.eqb_refl.
  - destruct (String.eqb (Evaluation.id x) (Evaluation.id e)); [discriminate|].
    now apply IH.
Qed.

Lemma find_evaluation_other (id : string) (rows : list Evaluation.t) (e : Evaluation.t) :
  Evaluation.id e <> id ->
  List.find (fun x => String.eqb (Evaluation.id x) id) (rows ++ [e])
  = List.find (fun x => String.eqb (Evaluation.id x) id) rows.
Proof.
  intros Hne. induction rows as [|x rows IH]; simpl.
  - now apply String.eqb_neq in Hne as ->.
  - now destruct (String.eqb (Evaluation.id x) id).
Qed.

Lemma related_new {A : Type} (id : string) (table : list (string * A)) (x : A) :
  Db.related id table = None -> Db.related id (table ++ [(id, x)]) = Some x.
Proof.
  unfold Db.related. induction table as [|[k v] table IH]; simpl.
  - intros _. now rewrite String.eqb_refl.
  - destruct (String.eqb k id); [discriminate|]. exact IH.
Qed.

Lemma related_other {A : Type} (id other : string) (table : list (string * A))
    (x : A) :
  id <> other -> Db.related other (table ++ [(id, x)]) = Db.related other table.
Proof.
  intros Hne. unfold Db.related. induction table as [|[k v] table IH]; simpl.
  - now apply String.eqb_neq in Hne as ->.
  - now destruct (String.eqb k other).
Qed.

(** A trust score in range is rebuilt as it is. *)
Lemma TrustScore_rebuild_ok (ts : TrustScore) :
  (0 <= overall ts <= 100)%Q -> (0 <= tier_1_score ts <= 100)%Q ->
  (0 <= tier_2_score ts <= 100)%Q ->
  from_option (fun s => (0 <= s <= 100)%Q) True (tier_3_score ts) ->
  TrustScore_rebuild ts = Ok ts.
Proof.
  intros Ho H1 H2 H3. unfold TrustScore_rebuild.
  rewrite TrustScore_new_ok by assumption. now destruct ts.
Qed.

(** X23.  An evaluation is read back as it was stored.  For an identifier
    that has no row yet, [get_evaluation] returns nothing; once the record,
    the two outcomes, the verdict if there is one and a trust score that
    [calculate] returned for them are stored, with a judgement that
    satisfies the constraints of its class, it returns exactly these, with
    the status and the times of the record; and what it returns for any
    other identifier is not changed by the new rows. *)
Theorem get_evaluation_round_trip (calculator : TrustScoreCalculator.t)
    (db : Database) (evaluation : Evaluation.t) (t1 : Tier1Result)
    (t2 : Tier2Result) (t3 : option Tier3Result) (ts : TrustScore) :
  fresh_id (Evaluation.id evaluation) db ->
  Tier2Result_valid t2 = true ->
  TrustScoreCalculator.calculate calculator t1 t2 t3 = Ok ts ->
  let db' := store_rows evaluation t1 t2 t3 ts db in
  get_evaluation db (Evaluation.id evaluation) = Ok None /\
  get_evaluation db' (Evaluation.id evaluation)
  = Ok (Some {| resp_evaluation_id := Evaluation.id evaluation;
                resp_run_id := Evaluation.run_id evaluation;
                resp_status := Evaluation.status evaluation;
                resp_tier_1_result := Some t1;
                resp_tier_2_result := Some t2;
                resp_tier_3_result := t3;
                resp_trust_score := Some ts;
                resp_created_at := Evaluation.created_at evaluation;
                resp_updated_at := Evaluation.updated_at evaluation |}) /\
  (forall other, other <> Evaluation.id evaluation ->
     get_evaluation db' other = get_evaluation db other).
Proof.
  intros (F0 & F1 & F2 & F3 & F4) Hv Hc db'. subst db'.
  destruct (calculate_returns_in_range _ _ _ _ _ Hc) as (Bo & B1 & B2 & B3).
  split; [unfold get_evaluation; now rewrite F0|].
  split.
  - unfold get_evaluation, Db.find_evaluation, store_rows in *.
    destruct t3 as [r|]; simpl;
      rewrite (find_evaluation_new _ _ evaluation eq_refl F0); simpl;
      rewrite (related_new _ _ t1 F1), (related_new _ _ t2 F2),
        (related_new _ _ ts F4); simpl;
      unfold Tier2Result_rebuild; rewrite Hv; simpl;
      rewrite TrustScore_rebuild_ok by assumption; simpl.
    + now rewrite (related_new _ _ r F3).
    + now rewrite F3.
  - intros other Hne.
    assert (Hne' : Evaluation.id evaluation <> other) by congruence.
    unfold get_evaluation, Db.find_evaluation, store_rows.
    destruct t3 as [r|]; simpl;
      rewrite (find_evaluation_other _ _ evaluation Hne');
      (destruct (List.find _ (evaluations db)) as [e|] eqn:F; [|reflexivity]);
      assert (Hid : Evaluation.id e = other)
        by (apply find_some in F as [_ F]; now apply String.eqb_eq in F);
      assert (Hne2 : Evaluation.id evaluation <> Evaluation.id e) by congruence;
      rewrite ?(related_other _ _ _ _ Hne2); reflexivity.
Qed.

End ReadBack.

Lemma get_evaluation_round_trip_witness :
  match TrustScoreCalculator.calculate default_calculator tier1_passed
          tier2_perfect None with
  | Ok ts =>
      Py.is_ok
        (CEEPipeline.get_evaluation
           (store_rows (evaluation_row sample_request "ev-1" COMPLETED 1000)
              tier1_passed tier2_perfect None ts empty_db) "ev-1") = true
  | Raise _ => False
  end.
Proof.
  destruct (TrustScoreCalculator.calculate default_calculator tier1_passed
              tier2_perfect None) as [ts|e] eqn:Hc;
    [|vm_compute in Hc; discriminate Hc].
  assert (Hfresh : fresh_id "ev-1" empty_db) by (repeat split).
  pose proof (get_evaluation_round_trip default_calculator empty_db
                (evaluation_row sample_request "ev-1" COMPLETED 1000)
                tier1_passed tier2_perfect None ts Hfresh eq_refl Hc) as H.
  cbv zeta in H. destruct H as (_ & H & _).
  change (Evaluation.id (evaluation_row sample_request "ev-1" COMPLETED 1000))
    with "ev-1"%string in H.
  now rewrite H.
Defined.

(** ** Verdict submission through the API *)

Section ApiFacts.

Lemma related_update_first {A : Type} (id : string) (g : A -> A)
    (table : list (string * A)) :
  Db.related id
    (Db.update_first (fun row => String.eqb (fst row) id)
       (fun row => (fst row, g (snd row))) table)
  = g <$> Db.related id table.
Proof.
  unfold Db.related. induction table as [|[k v] table IH]; simpl; [reflexivity|].
  destruct (String.eqb k id) eqn:E; simpl; rewrite E; [reflexivity | exact IH].
Qed.

(** X24.  When the endpoint answers, the verdict was one of the three
    accepted, it is in the evaluator's store and appended to the Tier-3
    table, the evaluation is COMPLETED, and the trust score row of the
    evaluation holds the overall score, Tier-3 score and breakdown
    recomputed by a calculator built from the environment on the stored
    Tier-1 and Tier-2 outcomes with the verdict, its Tier-1 and Tier-2
    scores left as they were.  The answer carries the new overall score. *)
Theorem api_submit_review_completes (env : Env) (ev ev' : Tier3Evaluator.t)
    (db db' : Database) (id reviewer verdict notes : string)
    (corrected : option string) (now : Z) (out : string * Q) :
  Api.submit_review env ev db id reviewer verdict notes corrected now
    = (ev', db', Ok out) ->
  let r := {| reviewer_id := reviewer; verdict := verdict; notes := notes;
              corrected_output := corrected; reviewed_at := now |} in
  verdict ∈ ["approved"; "rejected"; "needs_revision"]%string /\
  Tier3Evaluator.get_review_result ev' id = Some r /\
  row_status id db' = Some COMPLETED /\
  tier3_results db' = tier3_results db ++ [(id, r)] /\
  tier1_results db' = tier1_results db /\
  tier2_results db' = tier2_results db /\
  exists t1 t2 calculator new old,
    Db.related id (tier1_results db) = Some t1 /\
    Db.related id (tier2_results db) = Some t2 /\
    TrustScoreCalculator.__init__ env None None None = Ok calculator /\
    TrustScoreCalculator.calculate calculator t1 t2 (Some r) = Ok new /\
    out = (id, overall new) /\
    Db.related id (trust_scores db) = Some old /\
    Db.related id (trust_scores db') = Some (updated_trust_score old new).
Proof.
  unfold Api.submit_review.
  destruct (Db.find_evaluation id db) as [evaluation|] eqn:F;
    [|intros H; discriminate H].
  pose proof (submit_review_effect ev id reviewer verdict notes corrected now) as Hs.
  destruct (Tier3Evaluator.submit_review ev id reviewer verdict notes corrected now)
    as [[ev1 result]|e]; [|intros H; discriminate H].
  destruct Hs as (Hin & -> & _ & Hget & _).
  simpl.
  destruct (Db.related id (tier1_results db)) as [t1|] eqn:R1;
    [|intros H; discriminate H].
  destruct (Db.related id (tier2_results db)) as [t2|] eqn:R2;
    [|intros H; discriminate H].
  destruct (TrustScoreCalculator.__init__ env None None None) as [calculator|]
    eqn:I; [|intros H; discriminate H].
  destruct (TrustScoreCalculator.calculate calculator t1 t2 _) as [new|] eqn:C;
    [|intros H; discriminate H].
  destruct (Db.related id (trust_scores db)) as [old|] eqn:R4;
    [|intros H; discriminate H].
  intros H. injection H as <- <- <-.
  split; [exact Hin|]. split; [exact Hget|]. split.
  { unfold row_status, Db.find_evaluation in *. simpl.
    rewrite !find_on_evaluation by reflexivity. now rewrite F. }
  split; [reflexivity|]. split; [reflexivity|]. split; [reflexivity|].
  exists t1, t2, calculator, new, old.
  repeat split; try assumption. simpl.
  rewrite (related_update_first id (fun old => updated_trust_score old new)).
  now rewrite R4.
Qed.

Lemma api_submit_review_completes_witness :
  exists ev' db' score,
    Api.submit_review empty_env Api.tier3_evaluator db_awaiting_review "ev-1"
      "reviewer" "approved" "fine" None 2000 = (ev', db', Ok ("ev-1"%string, score)) /\
    row_status "ev-1" db_awaiting_review = Some NEEDS_HUMAN_REVIEW /\
    row_status "ev-1" db' = Some COMPLETED.
Proof.
  destruct (Api.submit_review empty_env Api.tier3_evaluator db_awaiting_review
              "ev-1" "reviewer" "approved" "fine" None 2000)
    as [[ev' db'] [[k score]|e]] eqn:H.
  - destruct (api_submit_review_completes _ _ _ _ _ _ _ _ _ _ _ _ H)
      as (_ & _ & Hs & _ & _ & _ & (t1 & t2 & c & new & old & _ & _ & _ & _ & Ho & _)).
    injection Ho as -> _.
    exists ev', db', score. split; [reflexivity|]. split; [reflexivity | exact Hs].
  - vm_compute in H. discriminate H.
Defined.

(** X25.  The endpoint records nothing for an evaluation it does not know
    or a verdict it does not accept: it answers 404 for an unknown
    identifier, before the evaluator is asked, and passes on the
    evaluator's [ValueError] for any other verdict; the evaluator, its
    store and the database are as before in both cases. *)
Theorem api_submit_review_rejects (env : Env) (ev : Tier3Evaluator.t)
    (db : Database) (id reviewer verdict notes : string)
    (corrected : option string) (now : Z) :
  Db.find_evaluation id db = None \/
  verdict ∉ ["approved"; "rejected"; "needs_revision"]%string ->
  exists e,
    Api.submit_review env ev db id reviewer verdict notes corrected now
      = (ev, db, Raise e) /\
    (Db.find_evaluation id db = None ->
     e = HTTPException 404 "Evaluation not found") /\
    (is_Some (Db.find_evaluation id db) ->
     e = ValueError "Verdict must be 'approved', 'rejected', or 'needs_revision'").
Proof.
  intros H. unfold Api.submit_review.
  destruct (Db.find_evaluation id db) as [evaluation|] eqn:F.
  - destruct H as [H | H]; [discriminate|].
    pose proof (submit_review_effect ev id reviewer verdict notes corrected now) as Hs.
    destruct (Tier3Evaluator.submit_review ev id reviewer verdict notes corrected now)
      as [[ev1 result]|e].
    + destruct Hs as (Hin & _). contradiction.
    + destruct Hs as (_ & ->). eexists. split; [reflexivity|].
      split; [discriminate | reflexivity].
  - eexists. split; [reflexivity|]. split; [reflexivity | intros [? [=]]].
Qed.

Lemma api_submit_review_rejects_witness :
  exists e,
    Api.submit_review empty_env Api.tier3_evaluator db_awaiting_review "ev-1"
      "reviewer" "maybe" "hm" None 2000
      = (Api.tier3_evaluator, db_awaiting_review, Raise e).
Proof.
  destruct (api_submit_review_rejects empty_env Api.tier3_evaluator
              db_awaiting_review "ev-1" "reviewer" "maybe" "hm" None 2000)
    as (e & E & _).
  - right. intros H. repeat (apply elem_of_cons in H as [H | H]; [discriminate H|]).
    now apply elem_of_nil in H.
  - exists e. exact E.
Defined.

End ApiFacts.

(** ** From detection to the review decision *)

Section DetectionToReview.

Local Open Scope Q_scope.

Variable _check_pii : string -> bool.
Variable _check_profanity : string -> bool.
Variable _count_tokens : string -> Z.
Variable _calculate_rouge : string -> string -> Q.
Variable _calculate_bleu : string -> string -> Q.

(** A consistent outcome with PII scores at most 70: the penalty is at
    least 40 and the bonus at most 10. *)
Lemma tier1_pii_score_le_70 (r : Tier1Result) :
  Tier1Result_consistent r -> pii_detected r = true ->
  TrustScoreCalculator._calculate_tier1_score r <= 70.
Proof.
  intros [Hc Hr] Hp. rewrite tier1_score_refines.
  unfold tier1_sub_score. rewrite Hp in Hc. simpl in Hc. rewrite Hc.
  apply Q.max_lub; [lra|].
  eapply Qle_trans; [apply Q.le_min_r|].
  unfold tier1_penalties, tier1_bonus. rewrite Hp.
  destruct (profanity_detected r), (token_limit_exceeded r), (rouge_score r);
    simpl in *; lra.
Qed.

(** X26.  An output in which the rule checker finds PII cannot pass on the
    strength of its judgement.  Whatever the other detectors, the reference
    and the judge say, the outcome of the rule checker is a failure, its
    Tier-1 sub-score is at most 70, the review policy asks for a review on
    the grounds of the Tier-1 failure whatever the judgement, and with the
    default weights the two-tier trust score of the outcome and any
    judgement the judge evaluator builds exists and is at most 90.62. *)
Theorem pii_output_needs_review (checker : Tier1Evaluator.t)
    (judge : Tier2Evaluator.t) (model_output : string)
    (ground_truth : option string) (eval_data : Tier2Evaluator.EvalData)
    (t2 : Tier2Result) :
  _check_pii model_output = true ->
  (forall candidate reference, _calculate_rouge candidate reference <= 1) ->
  Tier2Evaluator.build_result judge eval_data = Ok t2 ->
  let t1 :=
    Tier1Evaluator.evaluate _check_pii _check_profanity _count_tokens
      _calculate_rouge _calculate_bleu checker model_output ground_truth in
  passed t1 = false /\
  TrustScoreCalculator._calculate_tier1_score t1 <= 70 /\
  (forall (uncertain : bool) (overall_score safety_score : Q),
     Tier3Evaluator.should_request_review (passed t1) uncertain overall_score
       safety_score = (true, "Tier 1 safety checks failed"%string)) /\
  exists ts,
    TrustScoreCalculator.calculate default_calculator t1 t2 None = Ok ts /\
    overall ts <= 90.62.
Proof.
  intros Hpii Hrouge Hj t1.
  assert (Hd : pii_detected t1 = true) by (subst t1; simpl; exact Hpii).
  assert (Hp : passed t1 = false) by (subst t1; simpl; now rewrite Hpii).
  assert (Hcons : Tier1Result_consistent t1).
  { split; [reflexivity|]. subst t1. simpl.
    destruct ground_truth as [g|]; simpl; [|exact I].
    destruct (String.eqb g ""); simpl; [exact I | apply Hrouge]. }
  pose proof (tier1_pii_score_le_70 t1 Hcons Hd) as H70.
  pose proof (build_result_in_class _ _ _ Hj) as Hv.
  split; [exact Hp|]. split; [exact H70|]. split.
  { intros uncertain o sfty. unfold Tier3Evaluator.should_request_review.
    now rewrite Hp. }
  destruct (calculate_two_tier default_calculator t1 t2)
    as (ts & Hc & Ho & _); try exact Hv; try (simpl; lra).
  exists ts. split; [exact Hc|].
  rewrite Ho. simpl.
  pose proof (tier2_score_bounds t2 Hv) as [_ H100].
  assert (Hr : Py.round2 90.625 == 90.62) by reflexivity.
  rewrite <- Hr. apply round2_mono.
  assert (A1 : 0.25 / (0.25 + 0.55) == 0.3125) by reflexivity.
  assert (A2 : 0.55 / (0.25 + 0.55) == 0.6875) by reflexivity.
  rewrite A1, A2. lra.
Qed.

End DetectionToReview.

Lemma pii_output_needs_review_witness :
  match Tier2Evaluator.build_result sample_judge (uniform_answer 5 (Some false)) with
  | Ok t2 =>
      exists ts,
        TrustScoreCalculator.calculate default_calculator
          (sample_tier1_evaluate (Tier1Evaluator.__init__ 4096)
             "Write to me at test@example.com" None) t2 None = Ok ts /\
        (overall ts <= 90.62)%Q
  | Raise _ => False
  end.
Proof.
  assert (Hr : forall candidate reference,
            (sample_similarity candidate reference <= 1)%Q).
  { intros c r. unfold sample_similarity. destruct (String.eqb c r); discriminate. }
  destruct (Tier2Evaluator.build_result sample_judge (uniform_answer 5 (Some false)))
    as [t2|e] eqn:Hj; [|vm_compute in Hj; discriminate Hj].
  exact (proj2 (proj2 (proj2
           (pii_output_needs_review sample_check_pii sample_check_profanity
              sample_count_tokens sample_similarity sample_similarity
              (Tier1Evaluator.__init__ 4096) sample_judge
              "Write to me at test@example.com" None
              (uniform_answer 5 (Some false)) t2 eq_refl Hr Hj)))).
Defined.

